(** * Veo3 Analyzer: prompt synthesis, scene location and the upload session

    A shallow embedding of [src/types.ts], [src/App.tsx] and
    [src/services/geminiService.ts].

    Conventions of the embedding.
    - A JavaScript string is a [string]; its offsets are positions in the
      sequence of its characters.
    - A JavaScript number that the program only floors, divides by 60 and
      prints is an exact rational ([Q]); a number used as an identifier or
      offset is an integer ([Z]).  Not-a-number, the infinities and the
      rounding of doubles beyond 2^53 are outside the embedding: what is
      stated of printed numbers is stated below 2^53.
    - [JSON.parse], [JSON.stringify] and [URL.createObjectURL] belong to the
      platform and are parameters of the session section.
    - A value that can be thrown is a [Thrown]; code that can throw lives in
      the monad [M], which also records the observable events of a run.
    - The clipboard, the download link and the release of object URLs touch
      none of the state the properties below speak of and are left out. *)

From Stdlib Require Import String Ascii List ZArith QArith Qround Lia Bool.
From Stdlib Require Import DecimalString DecimalPos DecimalZ.
Import ListNotations.

Local Open Scope string_scope.
Local Open Scope Z_scope.

(* ================================================================== *)
(** ** Strings and numbers of the platform *)
(* ================================================================== *)

Module JS.

(** The characters the sources name by escape or inside quotes. *)
Definition dquote : ascii := Ascii.ascii_of_nat 34.
Definition newline : ascii := Ascii.ascii_of_nat 10.
Definition comma : ascii := Ascii.ascii_of_nat 44.

Definition str (c : ascii) : string := String c EmptyString.

(** A string is truthy when it is not empty. *)
Definition truthy (s : string) : bool :=
  match s with EmptyString => false | String _ _ => true end.

(** [s.startsWith(p)]. *)
Fixpoint startsWith (s p : string) {struct p} : bool :=
  match p with
  | EmptyString => true
  | String c p' =>
      match s with
      | EmptyString => false
      | String d s' => if Ascii.eqb c d then startsWith s' p' else false
      end
  end.

(** The text from an offset on. *)
Fixpoint drop (n : nat) (s : string) : string :=
  match n with
  | O => s
  | S n' => match s with EmptyString => EmptyString | String _ s' => drop n' s' end
  end.

(** Left-to-right scan of [s], the part of the text that starts at offset
    [i]; -1 when the pattern does not occur. *)
Fixpoint indexOf_scan (s pat : string) (i : Z) : Z :=
  if startsWith s pat then i
  else match s with
       | EmptyString => -1
       | String _ s' => indexOf_scan s' pat (i + 1)
       end.

(** [s.indexOf(pat, position)]: the position is clamped to [0, s.length]. *)
Definition indexOf (s pat : string) (position : Z) : Z :=
  let k := Z.min (Z.max position 0) (Z.of_nat (String.length s)) in
  indexOf_scan (drop (Z.to_nat k) s) pat k.

(** [xs.join(sep)] on an array of strings. *)
Fixpoint join (sep : string) (xs : list string) : string :=
  match xs with
  | [] => ""
  | [x] => x
  | x :: rest => x ++ sep ++ join sep rest
  end.

(** [s.split(c)] for a one-character separator: the pieces between the
    separators, never an empty array. *)
Fixpoint split (c : ascii) (s : string) : list string :=
  match s with
  | EmptyString => [""]
  | String d s' =>
      if Ascii.eqb d c then "" :: split c s'
      else match split c s' with
           | [] => [String d ""]
           | piece :: rest => String d piece :: rest
           end
  end.

Fixpoint repeat_char (c : ascii) (n : nat) : string :=
  match n with O => "" | S n' => String c (repeat_char c n') end.

(** [s.padStart(target, c)] for a one-character filler. *)
Definition padStart (target : nat) (c : ascii) (s : string) : string :=
  repeat_char c (target - String.length s) ++ s.

(** [n.toString()] and [`${n}`] for an integer [n] below 2^53 in absolute
    value, the range in which the source prints every digit; the
    statements about printed numbers carry that bound. *)
Definition toString (n : Z) : string := NilZero.string_of_int (Z.to_int n).

(** [Math.floor]. *)
Definition floor (x : Q) : Z := Qfloor x.

(** [a % b] on integers: the remainder has the sign of the dividend. *)
Definition remainder (a b : Z) : Z := Z.rem a b.

End JS.

(* ================================================================== *)
(** ** src/types.ts *)
(* ================================================================== *)

Record DialogueLine := mkDialogueLine {
  speaker : string;
  line : string
}.

Record Scene := mkScene {
  scene_id : Z;
  timestamp_start_seconds : Q;
  timestamp_end_seconds : Q;
  description : string;
  objects : list string;
  actions : list string;
  dialogue : option (list DialogueLine)
}.

Record VideoAnalysis := mkVideoAnalysis {
  title : string;
  summary : string;
  scenes : list Scene
}.

Record ShotPrompt := mkShotPrompt {
  id : Z;
  timestamp : string;
  prompt : string;
  scene : Scene
}.

(* ================================================================== *)
(** ** src/App.tsx: formatTime and the prompt derivation *)
(* ================================================================== *)

(** Below 2^53 the quotient by 60 the source computes in doubles has the
    floor of the exact quotient, which is the one taken here; the
    statements about [formatTime] carry that bound. *)
Definition formatTime (seconds : Q) : string :=
  let floorSeconds := JS.floor seconds in
  let m := JS.floor (inject_Z floorSeconds / inject_Z 60) in
  let s := JS.remainder floorSeconds 60 in
  JS.toString m ++ ":" ++ JS.padStart 2 "0"%char (JS.toString s).

(** [`${d.speaker}: "${d.line}"`] *)
Definition dialogueEntry (d : DialogueLine) : string :=
  speaker d ++ ": " ++ JS.str JS.dquote ++ line d ++ JS.str JS.dquote.

(** The body of the callback given to [analysis.scenes.map], up to the
    object it returns: [promptText] is assigned, then extended twice. *)
Definition promptText (sc : Scene) : string :=
  let promptText0 := "Cinematic shot: " ++ description sc ++ "." in
  let promptText1 :=
    match dialogue sc with
    | Some ds =>
        if (0 <? List.length ds)%nat then
          let dialogueText := JS.join " " (map dialogueEntry ds) in
          promptText0 ++ (" Dialogue: " ++ dialogueText ++ ".")
        else promptText0
    | None => promptText0
    end in
  promptText1 ++ (" Prominent objects: " ++ JS.join ", " (objects sc)
                    ++ ". Actions: " ++ JS.join ", " (actions sc) ++ ".").

Definition shotPromptOf (sc : Scene) : ShotPrompt :=
  {| id := scene_id sc;
     timestamp := formatTime (timestamp_start_seconds sc) ++ " - "
                    ++ formatTime (timestamp_end_seconds sc);
     prompt := promptText sc;
     scene := sc |}.

(** [analysis.scenes.map(scene => ...)] *)
Definition synthesize (analysis : VideoAnalysis) : list ShotPrompt :=
  map shotPromptOf (scenes analysis).

(** The spec's wording of the time format: minutes are the floor of
    seconds over sixty, seconds are the floor modulo sixty, two digits. *)
Definition digit (d : Z) : ascii := Ascii.ascii_of_nat (48 + Z.to_nat d).

Definition twoDigits (n : Z) : string :=
  String (digit (n / 10)) (String (digit (n mod 10)) "").

Definition format_spec (seconds : Q) : string :=
  JS.toString (Qfloor (seconds / inject_Z 60)) ++ ":"
    ++ twoDigits (Qfloor seconds mod 60).

(** The spec's wording of the prompt: four parts in a fixed order. *)
Definition part_shot (sc : Scene) : string :=
  "Cinematic shot: " ++ description sc ++ ".".

Definition part_dialogue (sc : Scene) : string :=
  match dialogue sc with
  | None => ""
  | Some [] => ""
  | Some ds => " Dialogue: " ++ JS.join " " (map dialogueEntry ds) ++ "."
  end.

Definition part_objects (sc : Scene) : string :=
  " Prominent objects: " ++ JS.join ", " (objects sc) ++ ".".

Definition part_actions (sc : Scene) : string :=
  " Actions: " ++ JS.join ", " (actions sc) ++ ".".

Definition prompt_spec (sc : Scene) : string :=
  part_shot sc ++ part_dialogue sc ++ part_objects sc ++ part_actions sc.

(* ================================================================== *)
(** ** src/App.tsx: the scene locator of handleShotPromptClick *)
(* ================================================================== *)

(** [`"scene_id": ${scene.scene_id}`] *)
Definition sceneIdentifier (sceneId : Z) : string :=
  JS.str JS.dquote ++ "scene_id" ++ JS.str JS.dquote ++ ": " ++ JS.toString sceneId.

(** The range handed to [setSelectionRange], when there is one. *)
Definition locate (jsonOutput : string) (sceneId : Z) : option (Z * Z) :=
  let startIndex := JS.indexOf jsonOutput (sceneIdentifier sceneId) 0 in
  if startIndex =? -1 then None
  else
    let endIndex := JS.indexOf jsonOutput (JS.str JS.newline) startIndex in
    let finalEndIndex :=
      if endIndex =? -1 then Z.of_nat (String.length jsonOutput) else endIndex in
    Some (startIndex, finalEndIndex).

(** The pattern occurs in the text at offset [i]. *)
Definition occursAt (pat text : string) (i : nat) : Prop :=
  exists before after, text = before ++ pat ++ after /\ String.length before = i.

(** [text.slice(s, e)] for offsets inside the text. *)
Definition slice (text : string) (s e : Z) : string :=
  String.substring (Z.to_nat s) (Z.to_nat (e - s)) text.

Definition charAt (text : string) (i : Z) : option ascii :=
  String.get (Z.to_nat i) text.

(** [e] is the offset of the first newline at or after [s], or the length
    of the text when there is none. *)
Definition nextNewline (text : string) (s e : Z) : Prop :=
  s <= e <= Z.of_nat (String.length text)
  /\ (forall j, s <= j < e -> charAt text j <> Some JS.newline)
  /\ (e < Z.of_nat (String.length text) -> charAt text e = Some JS.newline).

(* ================================================================== *)
(** ** Thrown values, observable events and the monad of a run *)
(* ================================================================== *)

(** What [catch (err)] can receive: an instance of [Error] with its
    message, or any other value (the event a FileReader fails with). *)
Inductive Thrown :=
| ErrorObj (message : string)
| OtherValue (what : string).

Record File := mkFile {
  file_name : string;
  file_type : string
}.

(** The request of [ai.models.generateContent]; the instruction text and the
    response schema are constants of the source and carry no data. *)
Record Request := mkRequest {
  req_model : string;
  req_mimeType : string;
  req_data : string;
  req_responseMimeType : string
}.

Inductive Event :=
| EvReadFile (f : File)
| EvProgress (msg : string)
| EvRequest (r : Request)
| EvResponse (text : string)
| EvRejected (e : Thrown)
| EvConsoleError.

(** A computation appends to the log of events and returns or throws. *)
Definition M (A : Type) : Type := list Event -> list Event * (Thrown + A).

Definition ret {A} (a : A) : M A := fun log => (log, inr a).

Definition throw {A} (e : Thrown) : M A := fun log => (log, inl e).

Definition bind {A B} (c : M A) (k : A -> M B) : M B :=
  fun log =>
    match c log with
    | (log', inr a) => k a log'
    | (log', inl e) => (log', inl e)
    end.

Definition tryCatch {A} (body : M A) (handler : Thrown -> M A) : M A :=
  fun log =>
    match body log with
    | (log', inr a) => (log', inr a)
    | (log', inl e) => handler e log'
    end.

Definition emit (e : Event) : M unit := fun log => ((log ++ [e])%list, inr tt).

Definition liftResult {A} (r : Thrown + A) : M A :=
  match r with inl e => throw e | inr a => ret a end.

Declare Scope js_scope.
Delimit Scope js_scope with js.
Notation "x <- c ;; k" := (bind c (fun x => k))
  (at level 61, c at next level, right associativity) : js_scope.
Notation "c ;; k" := (bind c (fun _ => k))
  (at level 61, right associativity) : js_scope.

(** The run of a computation from the empty log. *)
Definition run {A} (c : M A) : list Event * (Thrown + A) := c [].

(** The answers of the world outside the program. *)
Record World := mkWorld {
  API_KEY : option string;
  readAsDataURL : File -> Thrown + string;
  generateContent : Request -> Thrown + string
}.

Definition isProgress (e : Event) : bool :=
  match e with EvProgress _ => true | _ => false end.

Definition isRequest (e : Event) : bool :=
  match e with EvRequest _ => true | _ => false end.

Definition isAnswer (e : Event) : bool :=
  match e with EvResponse _ | EvRejected _ => true | _ => false end.

Definition isReadFile (e : Event) : bool :=
  match e with EvReadFile _ => true | _ => false end.

Definition count (p : Event -> bool) (log : list Event) : nat :=
  List.length (filter p log).

(** The events up to the first request, and those after it. *)
Fixpoint beforeRequest (log : list Event) : list Event :=
  match log with
  | [] => []
  | e :: rest => if isRequest e then [] else e :: beforeRequest rest
  end.

Fixpoint afterRequest (log : list Event) : list Event :=
  match log with
  | [] => []
  | e :: rest => if isRequest e then rest else afterRequest rest
  end.

(** The events up to the answer, a response or a rejection. *)
Fixpoint untilAnswer (log : list Event) : list Event :=
  match log with
  | [] => []
  | e :: rest => if isAnswer e then [] else e :: untilAnswer rest
  end.

Definition reachesRequest (log : list Event) : Prop :=
  exists r, In (EvRequest r) log.

Definition progressCalls (log : list Event) : nat := count isProgress log.

Definition progressBeforeRequest (log : list Event) : nat :=
  count isProgress (beforeRequest log).

Definition progressWhileAwaiting (log : list Event) : nat :=
  count isProgress (untilAnswer (afterRequest log)).

(* ================================================================== *)
(** ** The state of the App component *)
(* ================================================================== *)

Inductive Tab := TabPrompts | TabJson.

Definition Tab_eqb (a b : Tab) : bool :=
  match a, b with
  | TabPrompts, TabPrompts | TabJson, TabJson => true
  | _, _ => false
  end.

(** One field per [useState] of [App]. *)
Record AppState := mkAppState {
  videoFile : option File;
  videoUrl : option string;
  jsonOutput : string;
  isLoading : bool;
  error : option string;
  progressMessage : string;
  copyButtonText : string;
  shotPrompts : list ShotPrompt;
  activeTab : Tab;
  selectedSceneId : option Z
}.

Definition setVideoFile (v : option File) (st : AppState) : AppState :=
  mkAppState v (videoUrl st) (jsonOutput st) (isLoading st) (error st)
    (progressMessage st) (copyButtonText st) (shotPrompts st) (activeTab st)
    (selectedSceneId st).
Definition setVideoUrl (v : option string) (st : AppState) : AppState :=
  mkAppState (videoFile st) v (jsonOutput st) (isLoading st) (error st)
    (progressMessage st) (copyButtonText st) (shotPrompts st) (activeTab st)
    (selectedSceneId st).
Definition setJsonOutput (v : string) (st : AppState) : AppState :=
  mkAppState (videoFile st) (videoUrl st) v (isLoading st) (error st)
    (progressMessage st) (copyButtonText st) (shotPrompts st) (activeTab st)
    (selectedSceneId st).
Definition setIsLoading (v : bool) (st : AppState) : AppState :=
  mkAppState (videoFile st) (videoUrl st) (jsonOutput st) v (error st)
    (progressMessage st) (copyButtonText st) (shotPrompts st) (activeTab st)
    (selectedSceneId st).
Definition setError (v : option string) (st : AppState) : AppState :=
  mkAppState (videoFile st) (videoUrl st) (jsonOutput st) (isLoading st) v
    (progressMessage st) (copyButtonText st) (shotPrompts st) (activeTab st)
    (selectedSceneId st).
Definition setProgressMessage (v : string) (st : AppState) : AppState :=
  mkAppState (videoFile st) (videoUrl st) (jsonOutput st) (isLoading st)
    (error st) v (copyButtonText st) (shotPrompts st) (activeTab st)
    (selectedSceneId st).
Definition setCopyButtonText (v : string) (st : AppState) : AppState :=
  mkAppState (videoFile st) (videoUrl st) (jsonOutput st) (isLoading st)
    (error st) (progressMessage st) v (shotPrompts st) (activeTab st)
    (selectedSceneId st).
Definition setShotPrompts (v : list ShotPrompt) (st : AppState) : AppState :=
  mkAppState (videoFile st) (videoUrl st) (jsonOutput st) (isLoading st)
    (error st) (progressMessage st) (copyButtonText st) v (activeTab st)
    (selectedSceneId st).
Definition setActiveTab (v : Tab) (st : AppState) : AppState :=
  mkAppState (videoFile st) (videoUrl st) (jsonOutput st) (isLoading st)
    (error st) (progressMessage st) (copyButtonText st) (shotPrompts st) v
    (selectedSceneId st).
Definition setSelectedSceneId (v : option Z) (st : AppState) : AppState :=
  mkAppState (videoFile st) (videoUrl st) (jsonOutput st) (isLoading st)
    (error st) (progressMessage st) (copyButtonText st) (shotPrompts st)
    (activeTab st) v.

(** The initial values of the hooks. *)
Definition initialState : AppState :=
  mkAppState None None "" false None "" "Copy" [] TabPrompts None.

(** The component together with what lives outside its hooks: the
    analyses whose promise has not settled, the position the video element
    was last sent to, and the selection range of the text area. *)
Record Machine := mkMachine {
  ui : AppState;
  outstanding : nat;
  playhead : option Q;
  selectionRange : option (Z * Z)
}.

Definition initialMachine : Machine := mkMachine initialState 0 None None.

Definition withUi (f : AppState -> AppState) (m : Machine) : Machine :=
  mkMachine (f (ui m)) (outstanding m) (playhead m) (selectionRange m).

(** What the JSX renders. *)
Definition optTruthy (o : option string) : bool :=
  match o with Some s => JS.truthy s | None => false end.

Definition isNone {A} (o : option A) : bool :=
  match o with Some _ => false | None => true end.

Definition uploadAreaVisible (st : AppState) : bool :=
  isNone (videoFile st) && negb (isLoading st).

Definition errorPanelVisible (st : AppState) : bool := optTruthy (error st).

Definition resultsVisible (st : AppState) : bool :=
  negb (isLoading st) && JS.truthy (jsonOutput st).

Definition videoMounted (st : AppState) : bool :=
  resultsVisible st && optTruthy (videoUrl st).

Definition textareaMounted (st : AppState) : bool :=
  resultsVisible st && Tab_eqb (activeTab st) TabJson.

Definition cardsVisible (st : AppState) : bool :=
  resultsVisible st && Tab_eqb (activeTab st) TabPrompts.

Definition validVideo (file : File) : bool :=
  JS.startsWith (file_type file) "video/".

(** Calls of the handlers of [App], and the two ways an analysis in flight
    comes back to the component. *)
Inductive Action :=
| Upload (file : File)
| Progress (msg : string)
| Settled (r : Thrown + string)
| Reset
| FormatJson
| EditJson (text : string)
| SetTab (t : Tab)
| ShotClick (sc : Scene).

(** What the user and the pending promise can do to the rendered page. *)
Inductive UiEvent :=
| DropFile (files : list File)
| ChooseFile (files : list File)
| ClickTryAgain
| ClickNewVideo
| ClickTab (t : Tab)
| TypeJson (text : string)
| ClickFormat
| ClickCard (i : nat)
| AnalysisProgress (msg : string)
| AnalysisSettled (r : Thrown + string).

Definition uiEnabled (m : Machine) (ev : UiEvent) : bool :=
  match ev with
  | DropFile _ | ChooseFile _ => uploadAreaVisible (ui m)
  | ClickTryAgain => errorPanelVisible (ui m)
  | ClickNewVideo | ClickTab _ => resultsVisible (ui m)
  | TypeJson _ | ClickFormat => textareaMounted (ui m)
  | ClickCard i =>
      cardsVisible (ui m) && (i <? List.length (shotPrompts (ui m)))%nat
  | AnalysisProgress _ | AnalysisSettled _ => (0 <? outstanding m)%nat
  end.

(** [handleDrop], [handleFileChange] and the [onClick] and [onChange]
    attributes: the handler call an event leads to, if any. *)
Definition uiAction (m : Machine) (ev : UiEvent) : option Action :=
  match ev with
  | DropFile files =>
      if isLoading (ui m) then None
      else match files with
           | [] => None
           | file :: _ => if validVideo file then Some (Upload file) else None
           end
  | ChooseFile files =>
      match files with
      | [] => None
      | file :: _ => Some (Upload file)
      end
  | ClickTryAgain | ClickNewVideo => Some Reset
  | ClickTab t => Some (SetTab t)
  | TypeJson text => Some (EditJson text)
  | ClickFormat => Some FormatJson
  | ClickCard i =>
      match nth_error (shotPrompts (ui m)) i with
      | Some shot => Some (ShotClick (scene shot))
      | None => None
      end
  | AnalysisProgress msg => Some (Progress msg)
  | AnalysisSettled r => Some (Settled r)
  end.

(** Sample data for the closed statements. *)
Module Sample.

Definition video : File := mkFile "clip.mp4" "video/mp4".

Definition sceneA : Scene :=
  mkScene 1 0 (8 # 1) "A dog runs" ["dog"; "ball"] ["running"]
    (Some [mkDialogueLine "Person 1" "Hello"]).

Definition sceneB : Scene :=
  mkScene 1 (8 # 1) (10 # 1) "The dog stops" [] [] None.

Definition analysis : VideoAnalysis :=
  mkVideoAnalysis "Dog" "A dog plays" [sceneA; sceneB].

(** Two lines of pretty-printed JSON: scene 10 comes before scene 1. *)
Definition twoLines : string :=
  "    " ++ sceneIdentifier 10 ++ "," ++ JS.str JS.newline
    ++ "    " ++ sceneIdentifier 1 ++ ",".

(** Twice the same identifier. *)
Definition sameIdTwice : string :=
  "    " ++ sceneIdentifier 7 ++ "," ++ JS.str JS.newline
    ++ "    " ++ sceneIdentifier 7 ++ "," ++ JS.str JS.newline.

(** A parser that knows one document. *)
Definition parse (text : string) : Thrown + VideoAnalysis :=
  if String.eqb text "{dog}" then inr analysis
  else inl (ErrorObj "Unexpected token").

Definition stringify (v : VideoAnalysis) (space : nat) : string :=
  "{" ++ JS.str JS.newline ++ JS.repeat_char " " space ++ title v
    ++ JS.str JS.newline ++ "}".

Definition cast (v : VideoAnalysis) : Thrown + VideoAnalysis := inr v.

Definition objectURL (f : File) : string := "blob:" ++ file_name f.

(** A world with a key, a readable file and a remote that answers. *)
Definition world : World :=
  mkWorld (Some "key") (fun _ => inr "data:video/mp4;base64,AAAA")
    (fun _ => inr "{dog}").

(** The same world with a remote that rejects. *)
Definition rateLimited : World :=
  mkWorld (Some "key") (fun _ => inr "data:video/mp4;base64,AAAA")
    (fun _ => inl (ErrorObj "rate limited")).

(** The same world without a key. *)
Definition noKey : World :=
  mkWorld None (fun _ => inr "data:video/mp4;base64,AAAA")
    (fun _ => inr "{dog}").

End Sample.


(* ================================================================== *)
(** ** src/App.tsx: the card of a shot, the download, the object URLs *)
(* ================================================================== *)

(** The text has the piece somewhere inside. *)
Definition includes (text piece : string) : Prop :=
  exists before after, text = before ++ piece ++ after.

(** [isSelected={selectedSceneId === shot.id}] *)
Definition isSelected (st : AppState) (shot : ShotPrompt) : bool :=
  match selectedSceneId st with
  | Some selected => selected =? id shot
  | None => false
  end.

Definition dot : ascii := "."%char.

(** [`${videoFile?.name.split('.')[0]}_analysis.json` || 'analysis.json']:
    a missing file or piece is printed as [undefined] by the template. *)
Definition downloadName (file : option File) : string :=
  let stem :=
    match file with
    | Some f =>
        match nth_error (JS.split dot (file_name f)) 0 with
        | Some piece => piece
        | None => "undefined"
        end
    | None => "undefined"
    end in
  let name := stem ++ "_analysis.json" in
  if JS.truthy name then name else "analysis.json".

(** [handleDownloadJson]: the name and the content of the file the link
    offers, when the handler does not return at once. *)
Definition handleDownloadJson (st : AppState) : option (string * string) :=
  if negb (JS.truthy (jsonOutput st)) then None
  else Some (downloadName (videoFile st), jsonOutput st).

(** The events of the user, as against those of a pending analysis. *)
Definition isUserEvent (ev : UiEvent) : bool :=
  match ev with
  | AnalysisProgress _ | AnalysisSettled _ => false
  | _ => true
  end.

(** The object URLs of the video: [URL.createObjectURL] hands out a URL
    that is not in use (here the next number), [URL.revokeObjectURL] ends
    one.  [current] is the URL in [videoUrl]. *)
Record UrlStore := mkUrlStore {
  minted : nat;
  live : list nat;
  current : option nat
}.

Definition noUrls : UrlStore := mkUrlStore 0 [] None.

Definition revoke (url : option nat) (urls : list nat) : list nat :=
  match url with
  | Some u => filter (fun x => negb (x =? u)%nat) urls
  | None => urls
  end.

(** What a handler call and the render after it do to the object URLs.
    [handleFileUpload] creates a URL and stores it; [handleReset] revokes
    the stored one and stores none; after either, the value of [videoUrl]
    has changed, so the cleanup of the effect on [videoUrl] revokes the URL
    of the render before.  The URL of a download is created and revoked
    inside its handler and never stored. *)
Definition urlStep (a : Action) (s : UrlStore) : UrlStore :=
  match a with
  | Upload file =>
      if validVideo file then
        let url := minted s in
        mkUrlStore (S (minted s)) (revoke (current s) (url :: live s)) (Some url)
      else s
  | Reset =>
      match current s with
      | Some u =>
          mkUrlStore (minted s) (revoke (Some u) (revoke (Some u) (live s))) None
      | None => s
      end
  | _ => s
  end.

Definition urlsAfter (actions : list Action) : UrlStore :=
  fold_left (fun s a => urlStep a s) actions noUrls.

(** A platform that knows one document, which is its own pretty form, and
    worlds in which the upload goes wrong. *)
Module Canon.

Definition text : string := "{dog}".

Definition parse (s : string) : Thrown + unit :=
  if String.eqb s text then inr tt else inl (ErrorObj "Unexpected token").

Definition stringify (v : unit) (space : nat) : string := text.

Definition cast (v : unit) : Thrown + VideoAnalysis := inr Sample.analysis.

(** The remote answers with no text at all. *)
Definition emptyAnswer : World :=
  mkWorld (Some "key") (fun _ => inr "data:video/mp4;base64,AAAA")
    (fun _ => inr "").

(** The reader fails with its event. *)
Definition unreadable : World :=
  mkWorld (Some "key") (fun _ => inl (OtherValue "ProgressEvent"))
    (fun _ => inr text).

(** The file is empty: its data URL has nothing after the comma. *)
Definition emptyFile : World :=
  mkWorld (Some "key") (fun _ => inr "data:video/mp4;base64,")
    (fun _ => inr text).

Definition notVideo : File := mkFile "notes.v1.txt" "text/plain".

End Canon.

(** The spec's wording of the prompt, with the join of the Standard
    Library and the entry of a dialogue written out. *)
Definition entry_words (d : DialogueLine) : string :=
  speaker d ++ ": " ++ String "034"%char (line d ++ String "034"%char "").

Definition prompt_words (sc : Scene) : string :=
  ("Cinematic shot: " ++ description sc ++ ".")
  ++ match dialogue sc with
     | Some (d :: ds) =>
         " Dialogue: " ++ String.concat " " (map entry_words (d :: ds)) ++ "."
     | _ => ""
     end
  ++ (" Prominent objects: " ++ String.concat ", " (objects sc) ++ ".")
  ++ (" Actions: " ++ String.concat ", " (actions sc) ++ ".").

(** A scene with several objects, actions and dialogue lines, and a
    document as [JSON.stringify(value, null, 2)] prints one, written
    character by character: scenes 10, 1, 2 and 2 again, in this order. *)
Module Pretty.

Definition scene : Scene :=
  mkScene 3 (125 # 1) (1307 # 10) "Two people talk"
    ["table"; "lamp"; "cup"] ["talking"; "pointing"]
    (Some [mkDialogueLine "Person 1" "Hello"; mkDialogueLine "Person 2" "Hi"]).

Definition q : string := String "034"%char "".
Definition nl : string := String "010"%char "".

Definition sceneLines (digits description : string) (last : bool) : string :=
  "    {" ++ nl
  ++ "      " ++ q ++ "scene_id" ++ q ++ ": " ++ digits ++ "," ++ nl
  ++ "      " ++ q ++ "description" ++ q ++ ": " ++ q ++ description ++ q ++ nl
  ++ "    }" ++ (if last then "" else ",") ++ nl.

Definition text : string :=
  "{" ++ nl
  ++ "  " ++ q ++ "title" ++ q ++ ": " ++ q ++ "Dog" ++ q ++ "," ++ nl
  ++ "  " ++ q ++ "scenes" ++ q ++ ": [" ++ nl
  ++ sceneLines "10" "ten" false
  ++ sceneLines "1" "one" false
  ++ sceneLines "2" "two" false
  ++ sceneLines "2" "two again" true
  ++ "  ]" ++ nl
  ++ "}".

(** The same document without the blank after the colon. *)
Definition minified : string :=
  "{" ++ q ++ "scenes" ++ q ++ ":[{" ++ q ++ "scene_id" ++ q ++ ":1}]}".

End Pretty.
(* ================================================================== *)
(** ** src/services/geminiService.ts and the handlers of App *)
(* ================================================================== *)

Section Session.

(** The values [JSON.parse] returns, the parser ([inl] is the SyntaxError
    it throws) and [JSON.stringify(value, null, space)]. *)
Variable JSValue : Type.
Variable JSON_parse : string -> Thrown + JSValue.
Variable JSON_stringify : JSValue -> nat -> string.

(** The parsed value read at the type its annotation declares
    ([const analysis: VideoAnalysis = JSON.parse(jsonOutput)]); [inl] is
    the TypeError raised inside the same [try] block when the value has no
    [scenes] array or a scene lacks an array whose method the callback
    calls.  A value of another shape that raises nothing is outside the
    embedding. *)
Variable asVideoAnalysis : JSValue -> Thrown + VideoAnalysis.

Variable createObjectURL : File -> string.

Local Open Scope js_scope.

(** *** geminiService.ts *)

Definition fileToBase64 (w : World) (file : File) : M string :=
  emit (EvReadFile file) ;;
  match readAsDataURL w file with
  | inl error => throw error
  | inr dataUrl =>
      match nth_error (JS.split JS.comma dataUrl) 1 with
      | Some result =>
          if JS.truthy result then ret result
          else throw (ErrorObj "Failed to convert file to base64.")
      | None => throw (ErrorObj "Failed to convert file to base64.")
      end
  end.

(** [await ai.models.generateContent(...)] followed by [response.text],
    for an answer that carries a text; an answer without one is outside
    the embedding. *)
Definition ai_generateContent (w : World) (request : Request) : M string :=
  emit (EvRequest request) ;;
  match generateContent w request with
  | inl e => emit (EvRejected e) ;; throw e
  | inr text => emit (EvResponse text) ;; ret text
  end.

Definition console_error : M unit := emit EvConsoleError.

(** The one message the analysis reports. *)
Definition uploadingMessage : string :=
  "Uploading and analyzing with Gemini AI... This may take a moment.".

(** The request built from [videoPart], [textPart] and [schema]. *)
Definition requestFor (videoFile : File) (videoBase64 : string) : Request :=
  mkRequest "gemini-2.5-flash" (file_type videoFile) videoBase64
    "application/json".

(** The file is read and its data URL has a payload after the comma. *)
Definition encodes (w : World) (file : File) (videoBase64 : string) : Prop :=
  snd (run (fileToBase64 w file)) = inr videoBase64.

Definition analyzeVideoWithGemini (w : World) (videoFile : File)
    (setProgress : string -> M unit) : M string :=
  if negb (optTruthy (API_KEY w)) then
    throw (ErrorObj "API_KEY environment variable not set.")
  else
    videoBase64 <- fileToBase64 w videoFile ;;
    setProgress uploadingMessage ;;
    jsonText <- ai_generateContent w (requestFor videoFile videoBase64) ;;
    tryCatch
      (parsedJson <- liftResult (JSON_parse jsonText) ;;
       ret (JSON_stringify parsedJson 2))
      (fun e => console_error ;; ret jsonText).

(** The callback [App] passes: every call is an event of the run. *)
Definition recordProgress (msg : string) : M unit := emit (EvProgress msg).

Definition analysisRun (w : World) (videoFile : File)
    : list Event * (Thrown + string) :=
  run (analyzeVideoWithGemini w videoFile recordProgress).

(** *** App.tsx: the effect on [jsonOutput] *)

(** The [try] block of the effect. *)
Definition promptsOfText (text : string) : Thrown + list ShotPrompt :=
  match JSON_parse text with
  | inl e => inl e
  | inr parsed =>
      match asVideoAnalysis parsed with
      | inl e => inl e
      | inr analysis => inr (synthesize analysis)
      end
  end.

Definition promptEffect (st : AppState) : AppState :=
  if JS.truthy (jsonOutput st) then
    match promptsOfText (jsonOutput st) with
    | inr prompts => setActiveTab TabPrompts (setShotPrompts prompts st)
    | inl e => setShotPrompts [] st
    end
  else setShotPrompts [] st.

(** The prompt list the current text stands for. *)
Definition derivePrompts (text : string) : list ShotPrompt :=
  shotPrompts (promptEffect (setJsonOutput text initialState)).

(** *** App.tsx: the handlers *)

(** [handleFileUpload] up to its [await]. *)
Definition handleFileUpload_begin (file : File) (st : AppState) : AppState :=
  if negb (validVideo file) then
    setError (Some "Please upload a valid video file.") st
  else
    setProgressMessage "Preparing video for analysis..."
      (setJsonOutput ""
        (setIsLoading true
          (setError None
            (setVideoUrl (Some (createObjectURL file))
              (setVideoFile (Some file) st))))).

(** [handleFileUpload] from the [await] on: the rest of the [try] block,
    or the [catch] block, then the [finally] block. *)
Definition handleFileUpload_settled (r : Thrown + string) (st : AppState)
    : AppState :=
  let st1 :=
    match r with
    | inr result =>
        setJsonOutput result (setProgressMessage "Formatting response..." st)
    | inl err =>
        setError
          (Some match err with
                | ErrorObj message => message
                | OtherValue _ => "An unknown error occurred during analysis."
                end) st
    end in
  setProgressMessage "" (setIsLoading false st1).

Definition handleReset (st : AppState) : AppState :=
  setSelectedSceneId None
    (setActiveTab TabPrompts
      (setShotPrompts []
        (setCopyButtonText "Copy"
          (setProgressMessage ""
            (setIsLoading false
              (setError None
                (setJsonOutput ""
                  (setVideoUrl None
                    (setVideoFile None st))))))))).

Definition handleFormatJson (st : AppState) : AppState :=
  match JSON_parse (jsonOutput st) with
  | inr parsed => setJsonOutput (JSON_stringify parsed 2) st
  | inl e => st
  end.

Definition handleShotPromptClick (sc : Scene) (m : Machine) : Machine :=
  let st := setSelectedSceneId (Some (scene_id sc)) (ui m) in
  let playhead' :=
    if videoMounted (ui m) then Some (timestamp_start_seconds sc)
    else playhead m in
  if textareaMounted (ui m) && JS.truthy (jsonOutput (ui m)) then
    match locate (jsonOutput (ui m)) (scene_id sc) with
    | Some range =>
        mkMachine (setActiveTab TabJson st) (outstanding m) playhead'
          (Some range)
    | None => mkMachine st (outstanding m) playhead' (selectionRange m)
    end
  else mkMachine st (outstanding m) playhead' (selectionRange m).

(** One handler call. *)
Definition handle (a : Action) (m : Machine) : Machine :=
  match a with
  | Upload file =>
      mkMachine (handleFileUpload_begin file (ui m))
        (if validVideo file then S (outstanding m) else outstanding m)
        (playhead m) (selectionRange m)
  | Progress msg => withUi (setProgressMessage msg) m
  | Settled r =>
      mkMachine (handleFileUpload_settled r (ui m)) (pred (outstanding m))
        (playhead m) (selectionRange m)
  | Reset => mkMachine (handleReset (ui m)) (outstanding m) None None
  | FormatJson => withUi handleFormatJson m
  | EditJson text => withUi (setJsonOutput text) m
  | SetTab t => withUi (setActiveTab t) m
  | ShotClick sc => handleShotPromptClick sc m
  end.

(** A handler call followed by the render: the effect runs when the
    value of [jsonOutput] is not the one of the render before. *)
Definition dispatch (a : Action) (m : Machine) : Machine :=
  let m' := handle a m in
  if String.eqb (jsonOutput (ui m')) (jsonOutput (ui m)) then m'
  else withUi promptEffect m'.

Definition uiStep (ev : UiEvent) (m : Machine) : Machine :=
  match uiAction m ev with
  | Some a => dispatch a m
  | None => m
  end.

(** The states handler calls lead to, in whatever order they come. *)
Inductive coreReachable : Machine -> Prop :=
| core_init : coreReachable initialMachine
| core_step : forall m a, coreReachable m -> coreReachable (dispatch a m).

(** The states the rendered page leads to: an event needs its control on
    the page, a settlement needs an analysis in flight. *)
Inductive uiReachable : Machine -> Prop :=
| ui_init : uiReachable initialMachine
| ui_step : forall m ev,
    uiReachable m -> uiEnabled m ev = true -> uiReachable (uiStep ev m).

(** [handleFileUpload] run to its end in a world: the part before the
    [await], the analysis with its progress calls, the part after. *)
Definition applyProgress (m : Machine) (e : Event) : Machine :=
  match e with
  | EvProgress msg => dispatch (Progress msg) m
  | _ => m
  end.

(** The events of one upload: the handler's own calls of
    [setProgressMessage] and [console.error] around those of the analysis. *)
Definition sessionLog (analysis : list Event * (Thrown + string))
    : list Event :=
  (EvProgress "Preparing video for analysis..." :: fst analysis
   ++ match snd analysis with
      | inr _ => [EvProgress "Formatting response..."]
      | inl _ => [EvConsoleError]
      end
   ++ [EvProgress ""])%list.

Definition handleFileUpload (w : World) (file : File) (m : Machine)
    : Machine * list Event :=
  if negb (validVideo file) then (dispatch (Upload file) m, [])
  else
    let m1 := dispatch (Upload file) m in
    let '(log, r) := analysisRun w file in
    let m2 := fold_left applyProgress log m1 in
    (dispatch (Settled r) m2, sessionLog (log, r)).

(** The states of the spec's session machine, read off the hooks. *)
Inductive Phase := Idle | Analyzing | Ready | Failed.

Definition phase (st : AppState) : Phase :=
  if isLoading st then Analyzing
  else match error st with
       | Some _ => Failed
       | None => if JS.truthy (jsonOutput st) then Ready else Idle
       end.

(** The claim that the core refuses an upload during an analysis. *)
Definition rejectsUploadWhileAnalyzing (m : Machine) (file : File) : Prop :=
  phase (ui m) = Analyzing -> outstanding (dispatch (Upload file) m) = outstanding m.

(** The claim of two progress calls around the request. *)
Definition progressTwice (log : list Event) : Prop :=
  (2 <= progressCalls log)%nat
  /\ (1 <= progressBeforeRequest log)%nat
  /\ (1 <= progressWhileAwaiting log)%nat.



(** *** Runs of handler calls *)

Definition runActions (actions : list Action) : Machine :=
  fold_left (fun m a => dispatch a m) actions initialMachine.

(** The component at the time the remote call is pending: the upload has
    begun and the analysis has made its calls up to the request. *)
Definition stateWhileAwaiting (w : World) (file : File) (m : Machine) : Machine :=
  fold_left applyProgress (beforeRequest (fst (analysisRun w file)))
    (dispatch (Upload file) m).

(** The page after the sample video was chosen and its analysis came back
    with a text. *)
Definition readyAfter (result : string) : Machine :=
  uiStep (AnalysisSettled (inr result))
    (uiStep (ChooseFile [Sample.video]) initialMachine).

(* ================================================================ *)
(** ** Facts about strings *)
(* ================================================================ *)

Lemma append_assoc (a b c : string) : (a ++ b) ++ c = a ++ (b ++ c).
Proof. induction a as [|x a IH]; simpl; [reflexivity | now rewrite IH]. Qed.

Lemma append_nil_r (a : string) : a ++ "" = a.
Proof. induction a as [|x a IH]; simpl; [reflexivity | now rewrite IH]. Qed.

Lemma length_append (a b : string) :
  String.length (a ++ b) = (String.length a + String.length b)%nat.
Proof. induction a as [|x a IH]; simpl; [reflexivity | now rewrite IH]. Qed.

Lemma startsWith_append (p rest : string) : JS.startsWith (p ++ rest) p = true.
Proof.
  induction p as [|c p IH]; simpl; [reflexivity|].
  now rewrite Ascii.eqb_refl.
Qed.

Lemma startsWith_inv (s p : string) :
  JS.startsWith s p = true -> exists rest, s = p ++ rest.
Proof.
  revert s; induction p as [|c p IH]; intros s H; simpl in *.
  - now exists s.
  - destruct s as [|d s]; [discriminate|].
    destruct (Ascii.eqb c d) eqn:E; [|discriminate].
    apply Ascii.eqb_eq in E; subst d.
    destruct (IH _ H) as [rest ->]. now exists rest.
Qed.

Lemma drop_append (a b : string) : JS.drop (String.length a) (a ++ b) = b.
Proof. induction a as [|x a IH]; simpl; [reflexivity | exact IH]. Qed.

Lemma drop_split (n : nat) (s : string) :
  (n <= String.length s)%nat ->
  exists before, s = before ++ JS.drop n s /\ String.length before = n.
Proof.
  revert s; induction n as [|n IH]; intros s H.
  - now exists "".
  - destruct s as [|c s]; simpl in H; [lia|].
    destruct (IH s) as [b [E L]]; [lia|].
    exists (String c b); simpl. split; [now rewrite <- E | now rewrite L].
Qed.

Lemma drop_length (n : nat) (s : string) :
  String.length (JS.drop n s) = (String.length s - n)%nat.
Proof.
  revert s; induction n as [|n IH]; intros s; simpl; [lia|].
  destruct s as [|c s]; simpl; [reflexivity | apply IH].
Qed.

Lemma drop_drop (a b : nat) (s : string) :
  JS.drop a (JS.drop b s) = JS.drop (b + a) s.
Proof.
  revert s; induction b as [|b IH]; intros s; simpl; [reflexivity|].
  destruct s as [|c s]; [now destruct a | apply IH].
Qed.

Lemma drop_past (n : nat) (s : string) :
  (String.length s <= n)%nat -> JS.drop n s = "".
Proof.
  revert s; induction n as [|n IH]; intros s H.
  - destruct s; [reflexivity | simpl in H; lia].
  - destruct s as [|c s]; [reflexivity | apply IH; simpl in H; lia].
Qed.

(** An occurrence at an offset, read on the text from that offset on. *)
Lemma occursAt_startsWith (pat text : string) (i : nat) :
  occursAt pat text i <->
  (i <= String.length text)%nat /\ JS.startsWith (JS.drop i text) pat = true.
Proof.
  split.
  - intros (b & a & -> & <-). split.
    + rewrite length_append. lia.
    + rewrite drop_append. apply startsWith_append.
  - intros [L H]. destruct (drop_split i text L) as (b & E & Lb).
    destruct (startsWith_inv _ _ H) as [rest R].
    exists b, rest. split; [|exact Lb]. now rewrite <- R.
Qed.

(** What the scan returns: the first offset at which the pattern starts,
    counted from [i], or -1 when it starts nowhere. *)
Lemma indexOf_scan_spec (s pat : string) (i : Z) :
  (JS.indexOf_scan s pat i = -1 /\
   forall j, JS.startsWith (JS.drop j s) pat = false)
  \/ (exists k : nat,
        JS.indexOf_scan s pat i = i + Z.of_nat k
        /\ (k <= String.length s)%nat
        /\ JS.startsWith (JS.drop k s) pat = true
        /\ forall j, (j < k)%nat -> JS.startsWith (JS.drop j s) pat = false).
Proof.
  revert i; induction s as [|c s IH]; intros i.
  - simpl. destruct pat as [|p pat]; simpl.
    + right. exists 0%nat. simpl.
      split; [lia|]. split; [lia|]. split; [reflexivity|]. intros j Hj; lia.
    + left. split; [reflexivity|]. intros [|j]; reflexivity.
  - cbn [JS.indexOf_scan].
    destruct (JS.startsWith (String c s) pat) eqn:E.
    + right. exists 0%nat. cbn [JS.drop].
      split; [lia|]. split; [simpl; lia|]. split; [exact E|].
      intros j Hj; lia.
    + destruct (IH (i + 1)) as [[R N] | (k & R & L & F & N)].
      * left. split; [exact R|]. intros [|j]; [exact E | apply N].
      * right. exists (S k). cbn [JS.drop String.length].
        split; [lia|]. split; [lia|]. split; [exact F|].
        intros [|j] Hj; [exact E | apply N; lia].
Qed.

Lemma indexOf_spec (text pat : string) (pos : nat) :
  (pos <= String.length text)%nat ->
  (JS.indexOf text pat (Z.of_nat pos) = -1
   /\ forall j, (pos <= j)%nat -> ~ occursAt pat text j)
  \/ (exists r : nat,
        JS.indexOf text pat (Z.of_nat pos) = Z.of_nat r
        /\ (pos <= r <= String.length text)%nat
        /\ occursAt pat text r
        /\ forall j, (pos <= j < r)%nat -> ~ occursAt pat text j).
Proof.
  intros L. unfold JS.indexOf.
  replace (Z.min (Z.max (Z.of_nat pos) 0) (Z.of_nat (String.length text)))
    with (Z.of_nat pos) by lia.
  rewrite Nat2Z.id.
  destruct (indexOf_scan_spec (JS.drop pos text) pat (Z.of_nat pos))
    as [[R N] | (k & R & Lk & F & N)].
  - left. split; [exact R|]. intros j Hj O.
    apply occursAt_startsWith in O. destruct O as [_ O].
    specialize (N (j - pos)%nat). rewrite drop_drop in N.
    replace (pos + (j - pos))%nat with j in N by lia. congruence.
  - right. exists (pos + k)%nat. rewrite drop_length in Lk.
    split; [rewrite R; lia|]. split; [lia|]. split.
    + apply occursAt_startsWith. split; [lia|]. now rewrite <- drop_drop.
    + intros j Hj O. apply occursAt_startsWith in O. destruct O as [_ O].
      specialize (N (j - pos)%nat). rewrite drop_drop in N.
      replace (pos + (j - pos))%nat with j in N by lia.
      rewrite N in O; [discriminate | lia].
Qed.

Lemma get_append_r (a b : string) (n : nat) :
  String.get (String.length a + n) (a ++ b) = String.get n b.
Proof. induction a as [|x a IH]; simpl; [reflexivity | exact IH]. Qed.

Lemma get_append_l (a b : string) (n : nat) :
  (n < String.length a)%nat -> String.get n (a ++ b) = String.get n a.
Proof.
  revert n; induction a as [|x a IH]; intros n H; simpl in *; [lia|].
  destruct n as [|n]; [reflexivity | apply IH; lia].
Qed.

Lemma get_drop (n : nat) (s : string) :
  String.get 0 (JS.drop n s) = String.get n s.
Proof.
  revert s; induction n as [|n IH]; intros s; simpl; [reflexivity|].
  destruct s as [|c s]; [reflexivity | apply IH].
Qed.

(** A one-character pattern occurs where the text has that character. *)
Lemma occursAt_char (c : ascii) (text : string) (i : nat) :
  occursAt (JS.str c) text i <-> String.get i text = Some c.
Proof.
  rewrite occursAt_startsWith, <- get_drop. split.
  - intros [_ H]. destruct (JS.drop i text) as [|d s]; simpl in *; [discriminate|].
    destruct (Ascii.eqb c d) eqn:E; [|discriminate].
    apply Ascii.eqb_eq in E. now subst.
  - intros H. split.
    + destruct (Nat.le_gt_cases i (String.length text)) as [Hle|Hgt]; [exact Hle|].
      rewrite drop_past in H by lia. discriminate.
    + destruct (JS.drop i text) as [|d s]; simpl in *; [discriminate|].
      injection H as ->. now rewrite Ascii.eqb_refl.
Qed.

Lemma substring_append_r (a b : string) (n : nat) :
  String.substring (String.length a) n (a ++ b) = String.substring 0 n b.
Proof. induction a as [|x a IH]; simpl; [reflexivity | exact IH]. Qed.

Lemma substring_prefix (a b : string) (n : nat) :
  String.substring 0 (String.length a + n) (a ++ b)
  = a ++ String.substring 0 n b.
Proof. induction a as [|x a IH]; simpl; [reflexivity | now rewrite IH]. Qed.

(** The decimal form of an integer has digits and a sign only. *)
Lemma string_of_uint_no_newline (d : Decimal.uint) (i : nat) :
  String.get i (NilEmpty.string_of_uint d) <> Some JS.newline.
Proof.
  revert i; induction d; intros [|i]; simpl; try discriminate; apply IHd.
Qed.

Lemma toString_no_newline (n : Z) (i : nat) :
  String.get i (JS.toString n) <> Some JS.newline.
Proof.
  unfold JS.toString, NilZero.string_of_int, NilZero.string_of_uint.
  destruct (Z.to_int n) as [d|d].
  - destruct d; try apply string_of_uint_no_newline.
    destruct i as [|[|i]]; simpl; discriminate.
  - destruct i as [|i]; [simpl; discriminate|].
    cbn [String.get]. 
    destruct d; try apply string_of_uint_no_newline.
    destruct i as [|[|i]]; simpl; discriminate.
Qed.

Lemma sceneIdentifier_no_newline (sceneId : Z) (i : nat) :
  String.get i (sceneIdentifier sceneId) <> Some JS.newline.
Proof.
  unfold sceneIdentifier. cbn [JS.str String.append].
  do 12 (destruct i as [|i]; [simpl; discriminate|]).
  cbn [String.get]. apply toString_no_newline.
Qed.

(* ================================================================ *)
(** ** The scene locator *)
(* ================================================================ *)

(** What [locate] computes, in terms of occurrences: nothing when the
    pattern occurs nowhere; otherwise the first occurrence [r] and the
    first newline [e] from [r] on, or the length of the text. *)
Lemma locate_cases (text : string) (sceneId : Z) :
  (locate text sceneId = None
   /\ forall j, ~ occursAt (sceneIdentifier sceneId) text j)
  \/ (exists r e : nat,
        locate text sceneId = Some (Z.of_nat r, Z.of_nat e)
        /\ occursAt (sceneIdentifier sceneId) text r
        /\ (forall j, (j < r)%nat -> ~ occursAt (sceneIdentifier sceneId) text j)
        /\ (r <= e <= String.length text)%nat
        /\ (forall j, (r <= j < e)%nat -> String.get j text <> Some JS.newline)
        /\ ((e < String.length text)%nat -> String.get e text = Some JS.newline)).
Proof.
  unfold locate.
  destruct (indexOf_spec text (sceneIdentifier sceneId) 0) as
    [[R N] | (r & R & L & O & F)]; [lia| |].
  - left. change (Z.of_nat 0) with 0 in R. rewrite R. simpl.
    split; [reflexivity|]. intros j. apply N. lia.
  - right. change (Z.of_nat 0) with 0 in R. rewrite R.
    destruct (Z.of_nat r =? -1) eqn:E; [apply Z.eqb_eq in E; lia|].
    destruct (indexOf_spec text (JS.str JS.newline) r) as
      [[R' N'] | (e & R' & L' & O' & F')]; [lia| |].
    + exists r, (String.length text). rewrite R'. simpl.
      split; [reflexivity|]. split; [exact O|].
      split; [intros j Hj; apply F; lia|]. split; [lia|].
      split; [|lia].
      intros j Hj G. apply (N' j); [lia|]. now apply occursAt_char.
    + exists r, e. rewrite R'.
      destruct (Z.of_nat e =? -1) eqn:E'; [apply Z.eqb_eq in E'; lia|].
      split; [reflexivity|]. split; [exact O|].
      split; [intros j Hj; apply F; lia|]. split; [lia|].
      split.
      * intros j Hj G. apply (F' j); [lia|]. now apply occursAt_char.
      * intros _. now apply occursAt_char.
Qed.

(** A span that starts at an occurrence and runs to the next newline
    begins with the whole pattern. *)
Lemma span_covers_pattern (text : string) (sceneId : Z) (r e : nat) :
  occursAt (sceneIdentifier sceneId) text r ->
  (r <= e <= String.length text)%nat ->
  (forall j, (r <= j < e)%nat -> String.get j text <> Some JS.newline) ->
  ((e < String.length text)%nat -> String.get e text = Some JS.newline) ->
  exists rest,
    slice text (Z.of_nat r) (Z.of_nat e) = sceneIdentifier sceneId ++ rest.
Proof.
  intros (b & a & E & Lb) L N G. subst text r.
  set (pat := sceneIdentifier sceneId) in *.
  assert (Hlen : (String.length b + String.length pat <= e)%nat).
  { destruct (Nat.le_gt_cases (String.length b + String.length pat) e)
      as [H|H]; [exact H|exfalso].
    assert (He : (e < String.length (b ++ pat ++ a))%nat)
      by (rewrite !length_append; lia).
    specialize (G He).
    replace e with (String.length b + (e - String.length b))%nat in G by lia.
    rewrite get_append_r, get_append_l in G by lia.
    exact (sceneIdentifier_no_newline _ _ G). }
  unfold slice. rewrite Nat2Z.id.
  replace (Z.to_nat (Z.of_nat e - Z.of_nat (String.length b)))
    with (String.length pat + (e - String.length b - String.length pat))%nat
    by lia.
  rewrite substring_append_r, substring_prefix. eauto.
Qed.

Lemma sceneIdentifier_literal (sceneId : Z) :
  sceneIdentifier sceneId
  = String "034"%char
      ("scene_id" ++ String "034"%char (": " ++ JS.toString sceneId)).
Proof. reflexivity. Qed.

(** The decimal form of an integer is read back as that integer by the
    parser of the Standard Library. *)
Lemma toString_reads_back (n : Z) :
  option_map Z.of_int (NilZero.int_of_string (JS.toString n)) = Some n.
Proof.
  unfold JS.toString. rewrite NilZero.isi.
  - cbn [option_map]. now rewrite DecimalZ.of_to.
  - destruct n; simpl; try discriminate.
    intros [= E]. now apply (Unsigned.to_uint_nonnil p).
  - destruct n; simpl; try discriminate.
    intros [= E]. now apply (Unsigned.to_uint_nonnil p).
Qed.

(** C4.  For an identifier in the range of the integers the source
    prints digit by digit (below 2^53 in absolute value), the locator
    searches the text for the pattern made of a double quote, [scene_id],
    a double quote, a colon, a blank and the decimal form of the
    identifier.  When the pattern occurs nowhere the result is nothing.
    Otherwise the result is a span (s, e): the pattern occurs at offset s,
    e is the offset of the first newline from s on or the length of the
    text when there is none, and the slice of the text from s to e
    contains the pattern.  In the sample document scene 2 is found on its
    first line, scene 3 is not found, and nothing is found in a document
    written without the blank after the colon, nor in the empty text. *)
Theorem locate_span_spec :
  (forall jsonText sceneId pattern,
      Z.abs sceneId < 2 ^ 53 ->
      pattern
      = String "034"%char
          ("scene_id" ++ String "034"%char (": " ++ JS.toString sceneId)) ->
      match locate jsonText sceneId with
      | None => forall i, ~ occursAt pattern jsonText i
      | Some (s, e) =>
          0 <= s
          /\ occursAt pattern jsonText (Z.to_nat s)
          /\ s <= e <= Z.of_nat (String.length jsonText)
          /\ (forall j, s <= j < e ->
                        String.get (Z.to_nat j) jsonText <> Some "010"%char)
          /\ (e < Z.of_nat (String.length jsonText) ->
              String.get (Z.to_nat e) jsonText = Some "010"%char)
          /\ exists rest, slice jsonText s e = pattern ++ rest
      end)
  /\ (forall n,
         option_map Z.of_int (NilZero.int_of_string (JS.toString n)) = Some n)
  /\ (JS.toString 10 = "10" /\ JS.toString 0 = "0" /\ JS.toString (-7) = "-7")
  /\ (locate Pretty.text 2 = Some (169, 183)
      /\ slice Pretty.text 169 183
         = String "034"%char ("scene_id" ++ String "034"%char ": 2,"))
  /\ locate Pretty.text 3 = None
  /\ locate Pretty.minified 1 = None
  /\ locate "" 1 = None.
Proof.
  split.
  { intros jsonText sceneId pattern _ ->. rewrite <- sceneIdentifier_literal.
    destruct (locate_cases jsonText sceneId) as
      [[-> N] | (r & e & -> & O & F & L & N & G)]; [exact N|].
    split; [lia|]. rewrite Nat2Z.id. split; [exact O|].
    split; [lia|]. split; [|split].
    - intros j Hj. apply N. lia.
    - rewrite Nat2Z.id. intros H. apply G. lia.
    - now apply span_covers_pattern. }
  split; [exact toString_reads_back|].
  repeat split; vm_compute; reflexivity.
Qed.

(** An occurrence of the pattern of a number is an occurrence of the
    pattern of every number whose decimal form begins that number's. *)
Lemma occursAt_longer_number (text : string) (a b : Z) (digits : string) (i : nat) :
  JS.toString b = JS.toString a ++ digits ->
  occursAt (sceneIdentifier b) text i -> occursAt (sceneIdentifier a) text i.
Proof.
  intros E (before & after & T & L).
  exists before, (digits ++ after). split; [|exact L].
  rewrite T. unfold sceneIdentifier. rewrite E.
  now rewrite !append_assoc.
Qed.

Lemma occursAt_compute (pat text : string) (i : nat) :
  (i <=? String.length text)%nat && JS.startsWith (JS.drop i text) pat = true ->
  occursAt pat text i.
Proof.
  intros H. apply andb_prop in H. destruct H as [L S].
  apply occursAt_startsWith. split; [now apply Nat.leb_le | exact S].
Qed.

(** C10.  For identifiers below 2^53 in absolute value, the span the
    locator returns starts at the earliest offset at which the pattern
    (double quote, [scene_id], double quote, colon, blank, decimal digits)
    occurs, and the pattern is matched as a substring with nothing required
    after it: an occurrence written for a longer number whose digits begin
    with those of the identifier is a match, so the returned span starts at
    or before it.  In the sample document, which lists scene 10 before
    scene 1, locating scene 1 returns the span of the line of scene 10,
    although scene 1 has a line of its own further down; scene 2 appears
    twice and the span of its first line is returned. *)
Theorem locate_first_undelimited_occurrence :
  (forall text sceneId pattern s e,
      Z.abs sceneId < 2 ^ 53 ->
      pattern
      = String "034"%char
          ("scene_id" ++ String "034"%char (": " ++ JS.toString sceneId)) ->
      locate text sceneId = Some (s, e) ->
      forall i, Z.of_nat i < s -> ~ occursAt pattern text i)
  /\ (forall text a b digits pattern i,
         Z.abs a < 2 ^ 53 -> Z.abs b < 2 ^ 53 ->
         JS.toString b = JS.toString a ++ digits ->
         pattern
         = String "034"%char
             ("scene_id" ++ String "034"%char (": " ++ JS.toString b)) ->
         occursAt pattern text i ->
         exists s e, locate text a = Some (s, e) /\ s <= Z.of_nat i)
  /\ (locate Pretty.text 1 = Some (46, 61)
      /\ locate Pretty.text 10 = Some (46, 61)
      /\ slice Pretty.text 46 61
         = String "034"%char ("scene_id" ++ String "034"%char ": 10,")
      /\ occursAt (String "034"%char ("scene_id" ++ String "034"%char ": 1,"))
           Pretty.text 108)
  /\ (locate Pretty.text 2 = Some (169, 183)
      /\ occursAt (String "034"%char ("scene_id" ++ String "034"%char ": 2,"))
           Pretty.text 169
      /\ occursAt (String "034"%char ("scene_id" ++ String "034"%char ": 2,"))
           Pretty.text 230).
Proof.
  split; [|split; [|split]].
  - intros text sceneId pattern s e _ -> H i Hi.
    rewrite <- sceneIdentifier_literal.
    destruct (locate_cases text sceneId) as
      [[R _] | (r & e' & R & _ & F & _)]; rewrite R in H; [discriminate|].
    injection H as <- <-. apply F. lia.
  - intros text a b digits pattern i _ _ E -> O.
    rewrite <- sceneIdentifier_literal in O.
    pose proof (occursAt_longer_number _ _ _ _ _ E O) as Oa.
    destruct (locate_cases text a) as
      [[_ N] | (r & e & R & _ & F & _)]; [now elim (N i)|].
    exists (Z.of_nat r), (Z.of_nat e). split; [exact R|].
    destruct (Nat.le_gt_cases r i) as [H|H]; [lia|]. now elim (F i).
  - split; [vm_compute; reflexivity|]. split; [vm_compute; reflexivity|].
    split; [vm_compute; reflexivity|].
    apply occursAt_compute. vm_compute. reflexivity.
  - split; [vm_compute; reflexivity|].
    split; apply occursAt_compute; vm_compute; reflexivity.
Qed.

(* ================================================================ *)
(** ** Time format *)
(* ================================================================ *)

Lemma Qfloor_over_60 (q : Q) : Qfloor (q / inject_Z 60) = Qfloor q / 60.
Proof.
  destruct q as [a b]. unfold Qdiv, Qmult, Qinv, inject_Z, Qfloor. simpl.
  rewrite Z.mul_1_r, Pos2Z.inj_mul.
  symmetry. apply Z.div_div; lia.
Qed.

Lemma Qfloor_inject_over_60 (n : Z) : Qfloor (inject_Z n / inject_Z 60) = n / 60.
Proof. rewrite Qfloor_over_60. now rewrite Qfloor_Z. Qed.

Lemma Qfloor_nonneg (q : Q) : (0 <= q)%Q -> 0 <= Qfloor q.
Proof.
  intros H. rewrite <- (Qfloor_Z 0). now apply Qfloor_resp_le.
Qed.

Lemma Qfloor_unique (q : Q) (n : Z) :
  (inject_Z n <= q)%Q -> (q < inject_Z (n + 1))%Q -> Qfloor q = n.
Proof.
  intros Hl Hu.
  assert (n <= Qfloor q) by (rewrite <- (Qfloor_Z n); now apply Qfloor_resp_le).
  assert (Qfloor q < n + 1).
  { rewrite Zlt_Qlt. eapply Qle_lt_trans; [apply Qfloor_le | exact Hu]. }
  lia.
Qed.

Lemma padStart_two_digits (s : Z) :
  0 <= s < 60 -> JS.padStart 2 "0"%char (JS.toString s) = twoDigits s.
Proof.
  intros H.
  assert (A : forall n : nat, (n < 60)%nat ->
              JS.padStart 2 "0"%char (JS.toString (Z.of_nat n))
              = twoDigits (Z.of_nat n)).
  { intros n Hn.
    do 60 (destruct n as [|n]; [vm_compute; reflexivity|]). lia. }
  rewrite <- (Z2Nat.id s) by lia. apply A. lia.
Qed.

Lemma formatTime_format_spec (seconds : Q) :
  (0 <= seconds)%Q -> formatTime seconds = format_spec seconds.
Proof.
  intros H. unfold formatTime, format_spec, JS.floor, JS.remainder.
  pose proof (Qfloor_nonneg _ H) as Hf.
  rewrite Qfloor_inject_over_60, Qfloor_over_60.
  rewrite Z.rem_mod_nonneg by lia.
  rewrite padStart_two_digits by (apply Z.mod_pos_bound; lia).
  reflexivity.
Qed.

(** C3.  For seconds that are not negative and below 2^53, the range in
    which the numbers of the source are whole to the unit, [formatTime] is
    the decimal form of the floor of seconds over sixty, a colon, and the
    floor of the seconds modulo sixty on two digits; the fraction is
    dropped, so every value between an integer and the next is printed as
    that integer; the four sample values print as stated; and the
    timestamp of a shot prompt is the two formatted times around
    [" - "]. *)
Theorem formatTime_floor_minutes_seconds :
  (forall seconds,
      (0 <= seconds)%Q -> (seconds < inject_Z (2 ^ 53))%Q ->
      formatTime seconds = format_spec seconds)
  /\ (forall seconds n,
         0 <= n < 2 ^ 53 ->
         (inject_Z n <= seconds)%Q -> (seconds < inject_Z (n + 1))%Q ->
         formatTime seconds = formatTime (inject_Z n))
  /\ formatTime 0 = "0:00"
  /\ formatTime (65 # 1) = "1:05"
  /\ formatTime (5999 # 10) = "9:59"
  /\ formatTime (1257 # 10) = "2:05"
  /\ (forall sc,
         timestamp (shotPromptOf sc)
         = formatTime (timestamp_start_seconds sc) ++ " - "
             ++ formatTime (timestamp_end_seconds sc))
  /\ timestamp (shotPromptOf Pretty.scene) = "2:05 - 2:10".
Proof.
  split; [intros seconds H _; now apply formatTime_format_spec|].
  split.
  { intros seconds n _ Hl Hu. unfold formatTime, JS.floor.
    now rewrite (Qfloor_unique _ _ Hl Hu), Qfloor_Z. }
  repeat split; vm_compute; reflexivity.
Qed.

(* ================================================================ *)
(** ** Prompt synthesis *)
(* ================================================================ *)

Lemma promptText_prompt_spec (sc : Scene) : promptText sc = prompt_spec sc.
Proof.
  unfold promptText, prompt_spec, part_shot, part_dialogue, part_objects,
    part_actions.
  destruct (dialogue sc) as [[|d ds]|]; cbn [List.length Nat.ltb Nat.leb];
    rewrite ?append_assoc; cbn [String.append]; rewrite ?append_assoc;
    reflexivity.
Qed.

(** C1.  The derivation yields one shot prompt per scene, in the order
    of the scenes: the prompt at each position is the one built from the
    scene at that position, it carries that scene and that scene's
    [scene_id], and nothing is merged or dropped when two scenes share an
    identifier. *)
Theorem synthesize_one_prompt_per_scene :
  (forall analysis : VideoAnalysis,
      List.length (synthesize analysis) = List.length (scenes analysis)
      /\ map scene (synthesize analysis) = scenes analysis
      /\ map id (synthesize analysis) = map scene_id (scenes analysis)
      /\ forall i,
           nth_error (synthesize analysis) i
           = option_map shotPromptOf (nth_error (scenes analysis) i))
  /\ map id (synthesize Sample.analysis) = [1; 1].
Proof.
  split; [|reflexivity].
  intros analysis. unfold synthesize. split; [apply length_map|].
  split; [rewrite map_map; apply map_id|].
  split; [now rewrite map_map|].
  intros i. apply nth_error_map.
Qed.

(** The two sample scenes: a ten-second clip cut at eight seconds. *)
Example sample_timestamps :
  map timestamp (synthesize Sample.analysis) = ["0:00 - 0:08"; "0:08 - 0:10"].
Proof. vm_compute. reflexivity. Qed.

Example sample_prompts :
  map prompt (synthesize Sample.analysis)
  = ["Cinematic shot: A dog runs. Dialogue: Person 1: " ++ JS.str JS.dquote
       ++ "Hello" ++ JS.str JS.dquote
       ++ ". Prominent objects: dog, ball. Actions: running.";
     "Cinematic shot: The dog stops. Prominent objects: . Actions: ."].
Proof. vm_compute. reflexivity. Qed.

(** Below zero the remainder keeps its sign and nothing is padded. *)
Example formatTime_below_zero : formatTime (-5 # 1) = "-1:-5".
Proof. vm_compute. reflexivity. Qed.

Lemma join_concat (sep : string) (xs : list string) :
  JS.join sep xs = String.concat sep xs.
Proof.
  induction xs as [|x rest IH]; [reflexivity|].
  destruct rest as [|y rest]; [reflexivity|].
  change (x ++ sep ++ JS.join sep (y :: rest)
          = x ++ sep ++ String.concat sep (y :: rest)).
  now rewrite IH.
Qed.

Lemma dialogueEntry_words (d : DialogueLine) : dialogueEntry d = entry_words d.
Proof. reflexivity. Qed.

Lemma promptText_prompt_words (sc : Scene) : promptText sc = prompt_words sc.
Proof.
  rewrite promptText_prompt_spec.
  unfold prompt_spec, prompt_words, part_shot, part_dialogue, part_objects,
    part_actions.
  rewrite !join_concat.
  destruct (dialogue sc) as [[|d ds]|]; try reflexivity.
  all: rewrite ?join_concat; reflexivity.
Qed.

(** C2.  The prompt of a scene is the concatenation, in this order, of
    the shot part, the dialogue part (empty unless the scene has a
    dialogue with at least one entry, else the entries written
    [speaker: "line"] and joined by one space), the objects joined by a
    comma and a space, and the actions joined likewise, each part closed
    by a full stop.  With no objects and no actions the prompt still ends
    in ["Prominent objects: . Actions: ."], the dialogue with the
    single entry of Person 1 saying Hello gives a prompt that contains
    [Dialogue: Person 1: "Hello".], and a scene with three objects, two
    actions and two dialogue lines gives the text written out below. *)
Theorem promptText_concatenation :
  (forall sc, prompt (shotPromptOf sc) = prompt_spec sc)
  /\ (forall sc,
         objects sc = [] -> actions sc = [] ->
         exists before,
           promptText sc = before ++ "Prominent objects: . Actions: .")
  /\ (forall sc,
         dialogue sc = Some [mkDialogueLine "Person 1" "Hello"] ->
         exists before after,
           promptText sc
           = before
               ++ ("Dialogue: Person 1: " ++ JS.str JS.dquote ++ "Hello"
                     ++ JS.str JS.dquote ++ ".")
               ++ after)
  /\ (forall sc, prompt (shotPromptOf sc) = prompt_words sc)
  /\ (forall sc,
         dialogue sc = Some [mkDialogueLine "Person 1" "Hello"] ->
         exists before after,
           promptText sc
           = before
               ++ ("Dialogue: Person 1: "
                     ++ String "034"%char ("Hello" ++ String "034"%char "."))
               ++ after)
  /\ prompt (shotPromptOf Pretty.scene)
     = "Cinematic shot: Two people talk. Dialogue: Person 1: "
         ++ String "034"%char
              ("Hello" ++ String "034"%char
                 (" Person 2: " ++ String "034"%char
                    ("Hi" ++ String "034"%char
                       ". Prominent objects: table, lamp, cup. Actions: talking, pointing."))).
Proof.
  assert (D : forall sc,
             dialogue sc = Some [mkDialogueLine "Person 1" "Hello"] ->
             exists before after,
               promptText sc
               = before
                   ++ ("Dialogue: Person 1: " ++ JS.str JS.dquote ++ "Hello"
                         ++ JS.str JS.dquote ++ ".")
                   ++ after).
  { intros sc Hd. rewrite promptText_prompt_spec.
    unfold prompt_spec, part_dialogue. rewrite Hd.
    exists (part_shot sc ++ " "), (part_objects sc ++ part_actions sc).
    cbn [JS.join map dialogueEntry speaker line String.append JS.str].
    rewrite !append_assoc. reflexivity. }
  split; [exact promptText_prompt_spec|]. split.
  { intros sc Ho Ha. rewrite promptText_prompt_spec.
    unfold prompt_spec, part_objects, part_actions. rewrite Ho, Ha.
    exists (part_shot sc ++ part_dialogue sc ++ " ").
    cbn [JS.join String.append]. rewrite !append_assoc. reflexivity. }
  split; [exact D|].
  split; [exact promptText_prompt_words|].
  split; [exact D|].
  vm_compute. reflexivity.
Qed.

(* ================================================================ *)
(** ** The analysis client *)
(* ================================================================ *)

Lemma fileToBase64_run (w : World) (file : File) (log : list Event) :
  fileToBase64 w file log
  = ((log ++ [EvReadFile file])%list, snd (run (fileToBase64 w file))).
Proof.
  unfold fileToBase64, run, bind, emit.
  destruct (readAsDataURL w file) as [e|dataUrl]; [reflexivity|].
  destruct (nth_error (JS.split JS.comma dataUrl) 1) as [result|];
    [|reflexivity].
  destruct (JS.truthy result); reflexivity.
Qed.

(** The runs of the analysis, case by case. *)
Lemma analysisRun_no_key (w : World) (file : File) :
  optTruthy (API_KEY w) = false ->
  analysisRun w file
  = ([], inl (ErrorObj "API_KEY environment variable not set.")).
Proof.
  intros H. unfold analysisRun, run, analyzeVideoWithGemini.
  now rewrite H.
Qed.

Lemma analysisRun_unreadable (w : World) (file : File) (e : Thrown) :
  optTruthy (API_KEY w) = true ->
  snd (run (fileToBase64 w file)) = inl e ->
  analysisRun w file = ([EvReadFile file], inl e).
Proof.
  intros H E. unfold analysisRun, run, analyzeVideoWithGemini.
  rewrite H. cbn [negb]. unfold bind at 1.
  rewrite fileToBase64_run, E. reflexivity.
Qed.

Lemma analysisRun_encoded (w : World) (file : File) (videoBase64 : string) :
  optTruthy (API_KEY w) = true ->
  encodes w file videoBase64 ->
  analysisRun w file
  = let request := requestFor file videoBase64 in
    let sent := [EvReadFile file; EvProgress uploadingMessage; EvRequest request] in
    match generateContent w request with
    | inl e => ((sent ++ [EvRejected e])%list, inl e)
    | inr text =>
        match JSON_parse text with
        | inr parsedJson =>
            ((sent ++ [EvResponse text])%list, inr (JSON_stringify parsedJson 2))
        | inl _ =>
            ((sent ++ [EvResponse text; EvConsoleError])%list, inr text)
        end
    end.
Proof.
  intros H E. unfold analysisRun, run, analyzeVideoWithGemini.
  rewrite H. cbn [negb]. unfold bind at 1.
  rewrite fileToBase64_run, E.
  unfold recordProgress, ai_generateContent, bind, emit, tryCatch,
    console_error. simpl.
  destruct (generateContent w (requestFor file videoBase64)) as [e|text];
    simpl; [reflexivity|].
  destruct (JSON_parse text) as [e|parsedJson]; reflexivity.
Qed.

(** C7.  When the remote answers with a text, the analysis returns the
    text parsed and written again with an indentation of two when it
    parses, and the text itself, unchanged, when it does not; it returns
    in both cases. *)
Theorem analyze_formats_or_returns_raw
    (w : World) (file : File) (videoBase64 text : string) :
  optTruthy (API_KEY w) = true ->
  encodes w file videoBase64 ->
  generateContent w (requestFor file videoBase64) = inr text ->
  snd (analysisRun w file)
  = inr match JSON_parse text with
        | inr parsedJson => JSON_stringify parsedJson 2
        | inl _ => text
        end.
Proof.
  intros K E G. rewrite (analysisRun_encoded _ _ _ K E). cbv zeta.
  rewrite G. destruct (JSON_parse text); reflexivity.
Qed.

Lemma no_request_in (log : list Event) :
  forallb (fun e => negb (isRequest e)) log = true -> ~ reachesRequest log.
Proof.
  intros H [r Hr]. rewrite forallb_forall in H.
  specialize (H _ Hr). discriminate.
Qed.

Lemma handleFileUpload_log (w : World) (file : File) (m : Machine) :
  validVideo file = true ->
  snd (handleFileUpload w file m) = sessionLog (analysisRun w file).
Proof.
  intros V. unfold handleFileUpload. rewrite V. cbn [negb].
  destruct (analysisRun w file) as [log r]. reflexivity.
Qed.

(** C8, as the code has it.  In every run of the analysis that reaches
    the remote request, the file has been read and has given its payload,
    the analysis then calls the progress callback exactly once, with its
    one message, and then sends the request: the events before the request
    are the reading and that call, in this order.  From the request on the
    analysis makes no progress call, neither while the request is pending
    nor after the answer.  With the call the upload handler makes itself
    before it starts the analysis, the callback is called twice before the
    request and not at all during the wait. *)
Theorem analyze_progress_once_before_request (w : World) (file : File) :
  reachesRequest (fst (analysisRun w file)) ->
  progressCalls (fst (analysisRun w file)) = 1%nat
  /\ progressBeforeRequest (fst (analysisRun w file)) = 1%nat
  /\ progressWhileAwaiting (fst (analysisRun w file)) = 0%nat
  /\ In (EvProgress uploadingMessage) (beforeRequest (fst (analysisRun w file)))
  /\ (forall m,
         validVideo file = true ->
         progressBeforeRequest (snd (handleFileUpload w file m)) = 2%nat
         /\ progressWhileAwaiting (snd (handleFileUpload w file m)) = 0%nat)
  /\ (exists videoBase64,
         encodes w file videoBase64
         /\ beforeRequest (fst (analysisRun w file))
            = [EvReadFile file;
               EvProgress
                 "Uploading and analyzing with Gemini AI... This may take a moment."])
  /\ count isProgress (afterRequest (fst (analysisRun w file))) = 0%nat.
Proof.
  intros R.
  destruct (optTruthy (API_KEY w)) eqn:K;
    [|rewrite (analysisRun_no_key _ _ K) in R; now elim (no_request_in [])].
  destruct (snd (run (fileToBase64 w file))) as [e|videoBase64] eqn:E;
    [rewrite (analysisRun_unreadable _ _ _ K E) in R;
     now elim (no_request_in [EvReadFile file])|].
  clear R. pose proof (analysisRun_encoded _ _ _ K E) as X. cbv zeta in X.
  destruct (generateContent w (requestFor file videoBase64)) as [e|text];
    [|destruct (JSON_parse text)].
  all: rewrite X.
  all: split; [reflexivity|]; split; [reflexivity|]; split; [reflexivity|].
  all: split; [cbn; auto|].
  all: split;
    [intros m V; rewrite (handleFileUpload_log _ _ _ V), X; split; reflexivity|].
  all: split; [exists videoBase64; split; [exact E | reflexivity] | reflexivity].
Qed.

(* ================================================================ *)
(** ** The session *)
(* ================================================================ *)

Lemma promptEffect_keeps (st : AppState) :
  jsonOutput (promptEffect st) = jsonOutput st
  /\ error (promptEffect st) = error st
  /\ isLoading (promptEffect st) = isLoading st
  /\ videoFile (promptEffect st) = videoFile st.
Proof.
  unfold promptEffect. destruct (JS.truthy (jsonOutput st));
    [destruct (promptsOfText (jsonOutput st))|]; repeat split.
Qed.

(** The render after a handler call changes neither the text, nor the
    error, nor the loading flag, nor the count of pending analyses. *)
Lemma dispatch_keeps (a : Action) (m : Machine) :
  outstanding (dispatch a m) = outstanding (handle a m)
  /\ jsonOutput (ui (dispatch a m)) = jsonOutput (ui (handle a m))
  /\ error (ui (dispatch a m)) = error (ui (handle a m))
  /\ isLoading (ui (dispatch a m)) = isLoading (ui (handle a m))
  /\ videoFile (ui (dispatch a m)) = videoFile (ui (handle a m)).
Proof.
  unfold dispatch.
  destruct (String.eqb (jsonOutput (ui (handle a m))) (jsonOutput (ui m)));
    [repeat split|].
  destruct (promptEffect_keeps (ui (handle a m))) as (J & E & L & V).
  cbn [withUi ui outstanding]. repeat split; assumption.
Qed.

Lemma phase_failed (st : AppState) (message : string) :
  isLoading st = false -> error st = Some message -> phase st = Failed.
Proof. intros L E. unfold phase. now rewrite L, E. Qed.

(** C6.  Without a key the analysis throws its configuration error
    before anything else happens: no file is read and no request is sent.
    A rejection of the remote call is thrown on as it is, after the one
    request; when it is an error with a message, the session ends in the
    error state with that message, as for ["rate limited"]. *)
Theorem analyze_missing_key_and_remote_error :
  (forall w file,
      optTruthy (API_KEY w) = false ->
      analysisRun w file
      = ([], inl (ErrorObj "API_KEY environment variable not set.")))
  /\ (forall w file videoBase64 e,
         optTruthy (API_KEY w) = true ->
         encodes w file videoBase64 ->
         generateContent w (requestFor file videoBase64) = inl e ->
         snd (analysisRun w file) = inl e
         /\ count isRequest (fst (analysisRun w file)) = 1%nat)
  /\ (forall w file videoBase64 message m,
         validVideo file = true ->
         optTruthy (API_KEY w) = true ->
         encodes w file videoBase64 ->
         generateContent w (requestFor file videoBase64)
         = inl (ErrorObj message) ->
         error (ui (fst (handleFileUpload w file m))) = Some message
         /\ phase (ui (fst (handleFileUpload w file m))) = Failed)
  /\ error (ui (fst (handleFileUpload Sample.rateLimited Sample.video
                       initialMachine)))
     = Some "rate limited".
Proof.
  split; [exact analysisRun_no_key|]. split; [|split].
  - intros w file videoBase64 e K E G.
    rewrite (analysisRun_encoded _ _ _ K E). cbv zeta. rewrite G.
    split; reflexivity.
  - intros w file videoBase64 message m V K E G.
    unfold handleFileUpload. rewrite V. cbn [negb].
    rewrite (analysisRun_encoded _ _ _ K E). cbv zeta. rewrite G.
    cbn [fst fold_left applyProgress].
    match goal with |- context [dispatch (Settled ?r) ?x] =>
      destruct (dispatch_keeps (Settled r) x) as (_ & _ & He & Hl & _)
    end.
    cbn [handle ui handleFileUpload_settled] in He, Hl.
    split; [exact He|]. eapply phase_failed; [exact Hl | exact He].
  - reflexivity.
Qed.

(** The effect computes the prompt list from the text alone. *)
Lemma promptEffect_derivePrompts (st : AppState) :
  shotPrompts (promptEffect st) = derivePrompts (jsonOutput st).
Proof.
  unfold derivePrompts, promptEffect. cbn [jsonOutput setJsonOutput].
  destruct (JS.truthy (jsonOutput st));
    [destruct (promptsOfText (jsonOutput st))|]; reflexivity.
Qed.

Lemma derivePrompts_empty : derivePrompts "" = [].
Proof. reflexivity. Qed.

Lemma derivePrompts_unparsable (text : string) (e : Thrown) :
  promptsOfText text = inl e -> derivePrompts text = [].
Proof.
  intros H. unfold derivePrompts, promptEffect.
  cbn [jsonOutput setJsonOutput]. rewrite H.
  destruct (JS.truthy text); reflexivity.
Qed.

(** A handler leaves the prompt list alone, except the reset, which
    empties the list and the text together. *)
Lemma handle_shotPrompts (a : Action) (m : Machine) :
  shotPrompts (ui (handle a m)) = shotPrompts (ui m)
  \/ (shotPrompts (ui (handle a m)) = [] /\ jsonOutput (ui (handle a m)) = "").
Proof.
  destruct a; cbn [handle withUi ui]; try (left; reflexivity).
  - left. unfold handleFileUpload_begin. destruct (validVideo file); reflexivity.
  - left. unfold handleFileUpload_settled. destruct r as [[?|?]|?]; reflexivity.
  - right. split; reflexivity.
  - left. unfold handleFormatJson. destruct (JSON_parse _); reflexivity.
  - left. unfold handleShotPromptClick.
    destruct (textareaMounted (ui m) && JS.truthy (jsonOutput (ui m)));
      [destruct (locate _ _)|]; reflexivity.
Qed.

Lemma dispatch_projection (a : Action) (m : Machine) :
  shotPrompts (ui m) = derivePrompts (jsonOutput (ui m)) ->
  shotPrompts (ui (dispatch a m))
  = derivePrompts (jsonOutput (ui (dispatch a m))).
Proof.
  intros IH. unfold dispatch.
  destruct (String.eqb (jsonOutput (ui (handle a m))) (jsonOutput (ui m)))
    eqn:E.
  - apply String.eqb_eq in E.
    destruct (handle_shotPrompts a m) as [H | [H J]].
    + now rewrite H, E.
    + now rewrite H, J.
  - cbn [withUi ui]. rewrite promptEffect_derivePrompts.
    now destruct (promptEffect_keeps (ui (handle a m))) as [-> _].
Qed.

Lemma coreReachable_projection (m : Machine) :
  coreReachable m -> shotPrompts (ui m) = derivePrompts (jsonOutput (ui m)).
Proof.
  induction 1 as [|m a _ IH]; [reflexivity | now apply dispatch_projection].
Qed.

(** C5.  The prompt list is a function of the text of the JSON buffer:
    the effect sets it to the list that text stands for and leaves the
    text as it is; that list is empty for the empty text and for a text
    whose parsing or reading throws, and it is the synthesis of the
    parsed analysis otherwise; the effect sets no error, whatever the text;
    in every state that handler calls lead to,
    the list is the one the current text stands for, also after a hand
    edit.  The effect is a total function of the state: nothing thrown
    inside it leaves it. *)
Theorem shotPrompts_projection_of_jsonOutput :
  (forall st,
      shotPrompts (promptEffect st) = derivePrompts (jsonOutput st)
      /\ jsonOutput (promptEffect st) = jsonOutput st
      /\ error (promptEffect st) = error st)
  /\ derivePrompts "" = []
  /\ (forall text e, JSON_parse text = inl e -> derivePrompts text = [])
  /\ (forall text e, promptsOfText text = inl e -> derivePrompts text = [])
  /\ (forall text parsed analysis,
         JS.truthy text = true ->
         JSON_parse text = inr parsed ->
         asVideoAnalysis parsed = inr analysis ->
         derivePrompts text = synthesize analysis)
  /\ (forall m,
         coreReachable m ->
         shotPrompts (ui m) = derivePrompts (jsonOutput (ui m)))
  /\ (forall m text,
         coreReachable m ->
         jsonOutput (ui (dispatch (EditJson text) m)) = text
         /\ shotPrompts (ui (dispatch (EditJson text) m)) = derivePrompts text).
Proof.
  split.
  { intros st. split; [apply promptEffect_derivePrompts|].
    split; apply promptEffect_keeps. }
  split; [reflexivity|]. split.
  { intros text e H. apply (derivePrompts_unparsable text e).
    unfold promptsOfText. now rewrite H. }
  split; [exact derivePrompts_unparsable|]. split.
  { intros text parsed analysis T P A.
    unfold derivePrompts, promptEffect, promptsOfText.
    cbn [jsonOutput setJsonOutput]. now rewrite T, P, A. }
  split; [exact coreReachable_projection|].
  intros m text R.
  assert (J : jsonOutput (ui (dispatch (EditJson text) m)) = text).
  { now destruct (dispatch_keeps (EditJson text) m) as (_ & -> & _). }
  split; [exact J|].
  rewrite <- J at 2. apply coreReachable_projection. now constructor.
Qed.

(** The page shows no upload control, no reset button and no result
    while an analysis is pending: at most one is. *)
Lemma uiReachable_invariant (m : Machine) :
  uiReachable m ->
  outstanding m = 0%nat
  \/ (outstanding m = 1%nat
      /\ isLoading (ui m) = true
      /\ error (ui m) = None
      /\ jsonOutput (ui m) = "").
Proof.
  induction 1 as [|m ev _ IH En]; [now left|].
  unfold uiStep.
  destruct (uiAction m ev) as [a|] eqn:A; [|exact IH].
  destruct (dispatch_keeps a m) as (O & J & E & L & _).
  rewrite O, J, E, L. clear O J E L.
  destruct IH as [Z | (O1 & L1 & E1 & J1)].
  - destruct ev; cbn [uiAction] in A; cbn [uiEnabled] in En;
      try (rewrite Z in En; discriminate);
      try (injection A as <-; left; cbn [handle outstanding withUi]; exact Z).
    + destruct (isLoading (ui m)); [discriminate|].
      destruct files as [|file ?]; [discriminate|].
      destruct (validVideo file) eqn:V; [|discriminate].
      injection A as <-. right. cbn [handle outstanding ui].
      unfold handleFileUpload_begin. rewrite V, Z. repeat split.
    + destruct files as [|file ?]; [discriminate|].
      injection A as <-. cbn [handle outstanding ui].
      unfold handleFileUpload_begin.
      destruct (validVideo file); [right; rewrite Z; repeat split | now left].
    + destruct (nth_error (shotPrompts (ui m)) i); [|discriminate].
      injection A as <-. left. cbn [handle].
      unfold handleShotPromptClick.
      destruct (textareaMounted (ui m) && JS.truthy (jsonOutput (ui m)));
        [destruct (locate _ _)|]; exact Z.
  - destruct ev; cbn [uiEnabled] in En;
      unfold uploadAreaVisible, errorPanelVisible, resultsVisible,
        textareaMounted, cardsVisible, resultsVisible in En;
      rewrite ?L1, ?E1, ?J1 in En; cbn in En;
      rewrite ?andb_false_r in En; try discriminate;
      cbn [uiAction] in A; injection A as <-.
    + right. cbn [handle withUi ui outstanding]. now repeat split.
    + left. cbn [handle outstanding]. now rewrite O1.
Qed.

Lemma phase_analyzing (st : AppState) : isLoading st = true -> phase st = Analyzing.
Proof. intros L. unfold phase. now rewrite L. Qed.

(** C9, as the code has it.  On every path of events the rendered page
    allows, at most one analysis is pending, and while one is the session
    is in the analyzing state: it is the page, which shows no upload
    control during an analysis, that keeps a second upload away. *)
Theorem ui_single_outstanding_analysis (m : Machine) :
  uiReachable m ->
  (outstanding m <= 1)%nat
  /\ (outstanding m = 1%nat -> phase (ui m) = Analyzing).
Proof.
  intros R. destruct (uiReachable_invariant m R) as [Z | (O & L & _)].
  - split; [lia|]. intros H; lia.
  - split; [lia|]. intros _. now apply phase_analyzing.
Qed.


(* ================================================================ *)
(** ** Further properties: reading the file *)
(* ================================================================ *)

Lemma get_cons_absent (c d : ascii) (s : string) :
  d <> c -> (forall i, String.get i s <> Some c) ->
  forall i, String.get i (String d s) <> Some c.
Proof.
  intros Hd Hs [|i]; simpl; [|apply Hs]. intros [= E]. now apply Hd.
Qed.

Lemma get_tail_absent (c d : ascii) (s : string) :
  (forall i, String.get i (String d s) <> Some c) ->
  d <> c /\ forall i, String.get i s <> Some c.
Proof.
  intros H. split.
  - intros E. apply (H 0%nat). simpl. now rewrite E.
  - intros i. apply (H (S i)).
Qed.

(** A text either has no separator and is its only piece, or it is cut at
    its first separator. *)
Lemma split_cases (c : ascii) (s : string) :
  ((forall i, String.get i s <> Some c) /\ JS.split c s = [s])
  \/ (exists h t,
        s = h ++ String c t
        /\ (forall i, String.get i h <> Some c)
        /\ JS.split c s = h :: JS.split c t).
Proof.
  induction s as [|d s IH].
  - left. split; [intros [|i]; discriminate | reflexivity].
  - cbn [JS.split]. destruct (Ascii.eqb d c) eqn:E.
    + apply Ascii.eqb_eq in E. subst d. right. exists "", s.
      split; [reflexivity|]. split; [intros [|i]; discriminate | reflexivity].
    + apply Ascii.eqb_neq in E.
      destruct IH as [[N R] | (h & t & S & N & R)].
      * left. rewrite R. split; [now apply get_cons_absent | reflexivity].
      * right. exists (String d h), t. rewrite R, S.
        split; [reflexivity|]. split; [now apply get_cons_absent | reflexivity].
Qed.

Lemma split_absent (c : ascii) (s : string) :
  (forall i, String.get i s <> Some c) -> JS.split c s = [s].
Proof.
  intros N. destruct (split_cases c s) as [[_ R] | (h & t & S & _ & _)];
    [exact R|].
  exfalso. apply (N (String.length h + 0)%nat).
  rewrite S, get_append_r. reflexivity.
Qed.

Lemma split_at_first (c : ascii) (h t : string) :
  (forall i, String.get i h <> Some c) ->
  JS.split c (h ++ String c t) = h :: JS.split c t.
Proof.
  induction h as [|d h IH]; intros N; cbn [String.append JS.split].
  - now rewrite Ascii.eqb_refl.
  - destruct (get_tail_absent _ _ _ N) as [Hd Hh].
    apply Ascii.eqb_neq in Hd. rewrite Hd, (IH Hh). reflexivity.
Qed.

(** The second piece of a split is the text between the first separator
    and the next one, or the end. *)
Lemma split_second (c : ascii) (s p : string) :
  nth_error (JS.split c s) 1 = Some p <->
  exists h rest,
    s = h ++ String c (p ++ rest)
    /\ (forall i, String.get i h <> Some c)
    /\ (forall i, String.get i p <> Some c)
    /\ (rest = "" \/ exists r, rest = String c r).
Proof.
  split.
  - intros H. destruct (split_cases c s) as [[_ R] | (h & t & S & N & R)];
      rewrite R in H; [discriminate|]. cbn [nth_error] in H.
    destruct (split_cases c t) as [[Nt Rt] | (p' & t' & St & Np & Rt)];
      rewrite Rt in H; injection H as <-.
    + exists h, "". rewrite append_nil_r. auto.
    + exists h, (String c t'). rewrite <- St. eauto 6.
  - intros (h & rest & -> & Nh & Np & [-> | [r ->]]);
      rewrite (split_at_first _ _ _ Nh); cbn [nth_error].
    + rewrite append_nil_r, (split_absent _ _ Np). reflexivity.
    + rewrite (split_at_first _ _ _ Np). reflexivity.
Qed.

(** X1.  [fileToBase64] resolves with a text exactly when the reader gives
    a data URL whose part between the first comma and the next one (or the
    end) is that text and is not empty; the file is read once. *)
Theorem fileToBase64_payload (w : World) (file : File) (videoBase64 : string) :
  run (fileToBase64 w file) = ([EvReadFile file], inr videoBase64) <->
  exists header rest,
    readAsDataURL w file = inr (header ++ "," ++ videoBase64 ++ rest)
    /\ (forall i, String.get i header <> Some JS.comma)
    /\ (forall i, String.get i videoBase64 <> Some JS.comma)
    /\ (rest = "" \/ exists r, rest = String JS.comma r)
    /\ videoBase64 <> "".
Proof.
  unfold run, fileToBase64, bind, emit. cbn [app]. split.
  - intros H.
    destruct (readAsDataURL w file) as [e|dataUrl]; [discriminate|].
    destruct (nth_error (JS.split JS.comma dataUrl) 1) as [result|] eqn:S;
      [|discriminate].
    destruct (JS.truthy result) eqn:T; [|discriminate].
    injection H as ->.
    apply split_second in S. destruct S as (h & rest & -> & Nh & Np & R).
    exists h, rest. repeat split; try assumption.
    intros ->. discriminate.
  - intros (h & rest & -> & Nh & Np & R & Ne).
    assert (S : nth_error (JS.split JS.comma (h ++ "," ++ videoBase64 ++ rest)) 1
                = Some videoBase64)
      by (apply split_second; exists h, rest; auto).
    rewrite S. destruct videoBase64; [contradiction | reflexivity].
Qed.

Lemma fileToBase64_reader_error (w : World) (file : File) (e : Thrown) :
  readAsDataURL w file = inl e ->
  run (fileToBase64 w file) = ([EvReadFile file], inl e).
Proof.
  unfold run, fileToBase64, bind, emit. cbn [app]. intros ->. reflexivity.
Qed.

Lemma fileToBase64_no_comma (w : World) (file : File) (dataUrl : string) :
  readAsDataURL w file = inr dataUrl ->
  (forall i, String.get i dataUrl <> Some JS.comma) ->
  run (fileToBase64 w file)
  = ([EvReadFile file], inl (ErrorObj "Failed to convert file to base64.")).
Proof.
  unfold run, fileToBase64, bind, emit. cbn [app]. intros -> N.
  now rewrite (split_absent _ _ N).
Qed.

Lemma fileToBase64_empty_payload (w : World) (file : File) (header rest : string) :
  readAsDataURL w file = inr (header ++ "," ++ rest) ->
  (forall i, String.get i header <> Some JS.comma) ->
  rest = "" \/ (exists r, rest = String JS.comma r) ->
  run (fileToBase64 w file)
  = ([EvReadFile file], inl (ErrorObj "Failed to convert file to base64.")).
Proof.
  unfold run, fileToBase64, bind, emit. cbn [app]. intros -> N R.
  assert (S : nth_error (JS.split JS.comma (header ++ "," ++ rest)) 1 = Some "").
  { apply split_second. exists header, rest. repeat split; try assumption.
    intros [|i]; discriminate. }
  rewrite S. reflexivity.
Qed.

(** X2.  [fileToBase64] rejects with the error of the reader as it is, and
    with its own error when the data URL has no comma or nothing between
    the first comma and the next; in each case the file was read once and
    nothing else happened. *)
Theorem fileToBase64_rejects (w : World) (file : File) :
  (forall e,
      readAsDataURL w file = inl e ->
      run (fileToBase64 w file) = ([EvReadFile file], inl e))
  /\ (forall dataUrl,
         readAsDataURL w file = inr dataUrl ->
         (forall i, String.get i dataUrl <> Some JS.comma) ->
         run (fileToBase64 w file)
         = ([EvReadFile file], inl (ErrorObj "Failed to convert file to base64.")))
  /\ (forall header rest,
         readAsDataURL w file = inr (header ++ "," ++ rest) ->
         (forall i, String.get i header <> Some JS.comma) ->
         rest = "" \/ (exists r, rest = String JS.comma r) ->
         run (fileToBase64 w file)
         = ([EvReadFile file], inl (ErrorObj "Failed to convert file to base64."))).
Proof.
  split; [exact (fileToBase64_reader_error w file)|].
  split; [exact (fileToBase64_no_comma w file)|].
  exact (fileToBase64_empty_payload w file).
Qed.

(* ================================================================ *)
(** ** Further properties: the analysis and one upload *)
(* ================================================================ *)

Lemma encodes_run (w : World) (file : File) (videoBase64 : string) :
  encodes w file videoBase64 <->
  run (fileToBase64 w file) = ([EvReadFile file], inr videoBase64).
Proof.
  unfold encodes. split.
  - intros E. unfold run at 1. rewrite fileToBase64_run, E. reflexivity.
  - intros ->. reflexivity.
Qed.

Lemma encodes_nonempty (w : World) (file : File) (videoBase64 : string) :
  encodes w file videoBase64 -> videoBase64 <> "".
Proof.
  unfold encodes, run, fileToBase64, bind, emit. cbn [app snd].
  destruct (readAsDataURL w file) as [e|dataUrl]; [discriminate|].
  destruct (nth_error (JS.split JS.comma dataUrl) 1) as [result|];
    [|discriminate].
  destruct (JS.truthy result) eqn:T; [|discriminate].
  intros [= <-] ->. discriminate.
Qed.

(** Every run of the analysis is one of three: stopped for want of a key,
    stopped at the reading of the file, or gone on to the one request. *)
Lemma analysisRun_cases (w : World) (file : File) :
  (optTruthy (API_KEY w) = false
   /\ analysisRun w file
      = ([], inl (ErrorObj "API_KEY environment variable not set.")))
  \/ (optTruthy (API_KEY w) = true
      /\ exists e,
           snd (run (fileToBase64 w file)) = inl e
           /\ analysisRun w file = ([EvReadFile file], inl e))
  \/ (optTruthy (API_KEY w) = true
      /\ exists videoBase64 answer outcome,
           encodes w file videoBase64
           /\ analysisRun w file
              = ([EvReadFile file; EvProgress uploadingMessage;
                  EvRequest (requestFor file videoBase64)] ++ answer,
                 outcome)%list
           /\ forallb (fun e => negb (isRequest e || isProgress e || isReadFile e))
                answer = true
           /\ match generateContent w (requestFor file videoBase64) with
              | inl e => outcome = inl e
              | inr text => exists result, outcome = inr result
              end).
Proof.
  destruct (optTruthy (API_KEY w)) eqn:K.
  - right. destruct (snd (run (fileToBase64 w file))) as [e|videoBase64] eqn:E.
    + left. split; [reflexivity|]. exists e. split; [reflexivity|].
      now apply analysisRun_unreadable.
    + right. split; [reflexivity|].
      rewrite (analysisRun_encoded _ _ _ K E). cbv zeta.
      destruct (generateContent w (requestFor file videoBase64)) as [e|text]
        eqn:G.
      * exists videoBase64, [EvRejected e], (inl e). rewrite G.
        split; [exact E|]. split; [reflexivity|]. split; reflexivity.
      * destruct (JSON_parse text) as [e|parsedJson].
        -- exists videoBase64, [EvResponse text; EvConsoleError], (inr text).
           rewrite G.
           split; [exact E|]. split; [reflexivity|]. split; [reflexivity|].
           now exists text.
        -- exists videoBase64, [EvResponse text],
             (inr (JSON_stringify parsedJson 2)). rewrite G.
           split; [exact E|]. split; [reflexivity|]. split; [reflexivity|].
           now exists (JSON_stringify parsedJson 2).
  - left. split; [reflexivity|]. now apply analysisRun_no_key.
Qed.

Lemma count_app (p : Event -> bool) (a b : list Event) :
  count p (a ++ b) = (count p a + count p b)%nat.
Proof. unfold count. now rewrite filter_app, length_app. Qed.

Lemma count_none (p q : Event -> bool) (l : list Event) :
  (forall e, q e = true -> p e = false) ->
  forallb q l = true -> count p l = 0%nat.
Proof.
  intros I. unfold count. induction l as [|e l IH]; [reflexivity|].
  cbn [forallb filter]. intros H. apply andb_prop in H. destruct H as [He Hl].
  rewrite (I _ He). now apply IH.
Qed.

(** X3.  A run of the analysis reads the file at most once, reports
    progress at most once and sends at most one request; a request is sent
    only with a key configured and after the file gave a payload that is
    not empty, it carries that payload with the type of the file, and the
    reading and the progress call come before it. *)
Theorem analysis_request_needs_key_and_payload (w : World) (file : File) :
  ((count isReadFile (fst (analysisRun w file)) <= 1)%nat
   /\ (count isProgress (fst (analysisRun w file)) <= 1)%nat
   /\ (count isRequest (fst (analysisRun w file)) <= 1)%nat)
  /\ (forall r,
         In (EvRequest r) (fst (analysisRun w file)) ->
         optTruthy (API_KEY w) = true
         /\ exists videoBase64,
              encodes w file videoBase64
              /\ videoBase64 <> ""
              /\ r = mkRequest "gemini-2.5-flash" (file_type file) videoBase64
                       "application/json"
              /\ beforeRequest (fst (analysisRun w file))
                 = [EvReadFile file; EvProgress uploadingMessage]).
Proof.
  destruct (analysisRun_cases w file) as
    [[K R] | [(K & e & E & R) | (K & b & answer & outcome & E & R & A & _)]];
    rewrite R; cbn [fst].
  - split; [cbn; lia|]. intros r [].
  - split; [cbn; lia|]. intros r [H|[]]. discriminate.
  - split.
    + assert (Z : forall p,
                (forall ev, negb (isRequest ev || isProgress ev || isReadFile ev)
                            = true -> p ev = false) ->
                count p answer = 0%nat)
        by (intros p I; exact (count_none p _ answer I A)).
      rewrite !count_app.
      rewrite (Z isReadFile), (Z isProgress), (Z isRequest); [cbn; lia | | |];
        intros ev H; apply negb_true_iff in H;
        apply orb_false_iff in H; destruct H as [H1 H2];
        apply orb_false_iff in H1; destruct H1 as [H0 H1]; assumption.
    + intros r H. split; [exact K|]. exists b.
      split; [exact E|]. split; [now apply (encodes_nonempty w file)|].
      split; [|reflexivity].
      destruct H as [H|[H|[H|H]]]; try discriminate.
      * now injection H as <-.
      * exfalso. rewrite forallb_forall in A. specialize (A _ H). discriminate.
Qed.

(** X4.  The analysis throws exactly in three cases: no key is
    configured; or the file gives no payload; or the remote rejects the
    request built from the payload.  The thrown value is then the
    configuration error, the value [fileToBase64] rejected with, or the
    rejection of the remote. *)
Theorem analysis_throws_iff (w : World) (file : File) (thrown : Thrown) :
  snd (analysisRun w file) = inl thrown <->
  (optTruthy (API_KEY w) = false
   /\ thrown = ErrorObj "API_KEY environment variable not set.")
  \/ (optTruthy (API_KEY w) = true
      /\ snd (run (fileToBase64 w file)) = inl thrown)
  \/ (optTruthy (API_KEY w) = true
      /\ exists videoBase64,
           encodes w file videoBase64
           /\ generateContent w (requestFor file videoBase64) = inl thrown).
Proof.
  split.
  - intros H.
    destruct (analysisRun_cases w file) as
      [[K R] | [(K & e & E & R) | (K & b & answer & outcome & E & R & _ & G)]];
      rewrite R in H; cbn [snd] in H.
    + left. split; [exact K | congruence].
    + right; left. split; [exact K | congruence].
    + right; right. split; [exact K|]. exists b. split; [exact E|].
      destruct (generateContent w (requestFor file b)) as [e|text].
      * congruence.
      * destruct G as [result G]. congruence.
  - intros [[K ->] | [[K E] | (K & b & E & G)]].
    + now rewrite (analysisRun_no_key _ _ K).
    + now rewrite (analysisRun_unreadable _ _ _ K E).
    + rewrite (analysisRun_encoded _ _ _ K E). cbv zeta. now rewrite G.
Qed.

Lemma promptEffect_keeps_rest (st : AppState) :
  progressMessage (promptEffect st) = progressMessage st
  /\ videoUrl (promptEffect st) = videoUrl st
  /\ copyButtonText (promptEffect st) = copyButtonText st
  /\ selectedSceneId (promptEffect st) = selectedSceneId st.
Proof.
  unfold promptEffect. destruct (JS.truthy (jsonOutput st));
    [destruct (promptsOfText (jsonOutput st))|]; repeat split.
Qed.

Lemma dispatch_keeps_rest (a : Action) (m : Machine) :
  progressMessage (ui (dispatch a m)) = progressMessage (ui (handle a m))
  /\ videoUrl (ui (dispatch a m)) = videoUrl (ui (handle a m))
  /\ selectedSceneId (ui (dispatch a m)) = selectedSceneId (ui (handle a m))
  /\ playhead (dispatch a m) = playhead (handle a m)
  /\ selectionRange (dispatch a m) = selectionRange (handle a m).
Proof.
  unfold dispatch.
  destruct (String.eqb (jsonOutput (ui (handle a m))) (jsonOutput (ui m)));
    [repeat split|].
  destruct (promptEffect_keeps_rest (ui (handle a m))) as (P & U & _ & S).
  cbn [withUi ui playhead selectionRange]. repeat split; assumption.
Qed.

(** A handler that leaves the text alone is followed by no effect. *)
Lemma dispatch_same_text (a : Action) (m : Machine) :
  jsonOutput (ui (handle a m)) = jsonOutput (ui m) -> dispatch a m = handle a m.
Proof. intros E. unfold dispatch. now rewrite E, String.eqb_refl. Qed.

Lemma dispatch_Progress (msg : string) (m : Machine) :
  dispatch (Progress msg) m = withUi (setProgressMessage msg) m.
Proof. now apply dispatch_same_text. Qed.

(** The progress calls of a run change the message and nothing else. *)
Lemma fold_applyProgress_keeps (log : list Event) (m : Machine) :
  outstanding (fold_left applyProgress log m) = outstanding m
  /\ jsonOutput (ui (fold_left applyProgress log m)) = jsonOutput (ui m)
  /\ error (ui (fold_left applyProgress log m)) = error (ui m)
  /\ isLoading (ui (fold_left applyProgress log m)) = isLoading (ui m)
  /\ videoFile (ui (fold_left applyProgress log m)) = videoFile (ui m)
  /\ (coreReachable m -> coreReachable (fold_left applyProgress log m)).
Proof.
  revert m; induction log as [|e log IH]; intros m; [repeat split; auto|].
  cbn [fold_left].
  destruct (IH (applyProgress m e)) as (O & J & E & L & V & R).
  rewrite O, J, E, L, V. clear O J E L V IH.
  destruct e; cbn [applyProgress] in *; try (repeat split; auto; fail).
  split; [now rewrite dispatch_Progress|].
  split; [now rewrite dispatch_Progress|].
  split; [now rewrite dispatch_Progress|].
  split; [now rewrite dispatch_Progress|].
  split; [now rewrite dispatch_Progress|].
  intros H. apply R. now constructor.
Qed.

Lemma handleFileUpload_state (w : World) (file : File) (m : Machine) :
  validVideo file = true ->
  fst (handleFileUpload w file m)
  = dispatch (Settled (snd (analysisRun w file)))
      (fold_left applyProgress (fst (analysisRun w file))
         (dispatch (Upload file) m)).
Proof.
  intros V. unfold handleFileUpload. rewrite V. cbn [negb].
  destruct (analysisRun w file) as [log r]. reflexivity.
Qed.

(** The component once a video upload has begun. *)
Lemma upload_begun (file : File) (m : Machine) :
  validVideo file = true ->
  outstanding (dispatch (Upload file) m) = S (outstanding m)
  /\ jsonOutput (ui (dispatch (Upload file) m)) = ""
  /\ error (ui (dispatch (Upload file) m)) = None
  /\ isLoading (ui (dispatch (Upload file) m)) = true
  /\ videoFile (ui (dispatch (Upload file) m)) = Some file
  /\ progressMessage (ui (dispatch (Upload file) m))
     = "Preparing video for analysis...".
Proof.
  intros V.
  destruct (dispatch_keeps (Upload file) m) as (O & J & E & L & F).
  destruct (dispatch_keeps_rest (Upload file) m) as (P & _).
  rewrite O, J, E, L, F, P. cbn [handle ui outstanding].
  unfold handleFileUpload_begin. rewrite V. repeat split.
Qed.

(** The component once the upload of a video has run to its end. *)
Lemma upload_settled (w : World) (file : File) (m : Machine) :
  validVideo file = true ->
  isLoading (ui (fst (handleFileUpload w file m))) = false
  /\ progressMessage (ui (fst (handleFileUpload w file m))) = ""
  /\ videoFile (ui (fst (handleFileUpload w file m))) = Some file
  /\ outstanding (fst (handleFileUpload w file m)) = outstanding m
  /\ match snd (analysisRun w file) with
     | inl e =>
         error (ui (fst (handleFileUpload w file m)))
         = Some match e with
                | ErrorObj message => message
                | OtherValue _ => "An unknown error occurred during analysis."
                end
         /\ jsonOutput (ui (fst (handleFileUpload w file m))) = ""
     | inr result =>
         error (ui (fst (handleFileUpload w file m))) = None
         /\ jsonOutput (ui (fst (handleFileUpload w file m))) = result
     end
  /\ (coreReachable m -> coreReachable (fst (handleFileUpload w file m))).
Proof.
  intros V. rewrite (handleFileUpload_state _ _ _ V).
  set (m1 := dispatch (Upload file) m).
  set (m2 := fold_left applyProgress (fst (analysisRun w file)) m1).
  destruct (upload_begun file m V) as (O1 & J1 & E1 & L1 & F1 & _).
  destruct (fold_applyProgress_keeps (fst (analysisRun w file)) m1)
    as (O2 & J2 & E2 & L2 & F2 & C2).
  fold m1 in O1, J1, E1, L1, F1. fold m2 in O2, J2, E2, L2, F2, C2.
  set (r := snd (analysisRun w file)).
  destruct (dispatch_keeps (Settled r) m2) as (O & J & E & L & F).
  destruct (dispatch_keeps_rest (Settled r) m2) as (P & _).
  cbn [handle ui outstanding] in O, J, E, L, F, P.
  split; [rewrite L; now destruct r|].
  split; [rewrite P; now destruct r|].
  split; [rewrite F; destruct r; cbn; congruence|].
  split; [rewrite O, O2, O1; reflexivity|].
  split.
  - rewrite E, J. destruct r as [e|result]; cbn; split; congruence.
  - intros C. constructor. apply C2. unfold m1. now constructor.
Qed.

(** X5.  Whatever makes the analysis throw, the upload of a video ends
    with the message of the thrown error, or the fixed message when the
    thrown value is not an error, with no text, no spinner and no progress
    message, with the file still in place, and with the count of pending
    analyses back where it was. *)
Theorem upload_failure_state (w : World) (file : File) (m : Machine) (e : Thrown) :
  validVideo file = true ->
  snd (analysisRun w file) = inl e ->
  error (ui (fst (handleFileUpload w file m)))
  = Some match e with
         | ErrorObj message => message
         | OtherValue _ => "An unknown error occurred during analysis."
         end
  /\ phase (ui (fst (handleFileUpload w file m))) = Failed
  /\ jsonOutput (ui (fst (handleFileUpload w file m))) = ""
  /\ isLoading (ui (fst (handleFileUpload w file m))) = false
  /\ progressMessage (ui (fst (handleFileUpload w file m))) = ""
  /\ videoFile (ui (fst (handleFileUpload w file m))) = Some file
  /\ outstanding (fst (handleFileUpload w file m)) = outstanding m.
Proof.
  intros V R.
  destruct (upload_settled w file m V) as (L & P & F & O & S & _).
  rewrite R in S. destruct S as [E J].
  split; [exact E|].
  split; [eapply phase_failed; [exact L | exact E]|].
  split; [exact J|]. split; [exact L|]. split; [exact P|].
  split; [exact F | exact O].
Qed.

(** X6.  When the analysis returns a text, the upload of a video ends with
    that text in the buffer, the prompt list that text stands for, no
    error, no spinner and no progress message, the file in place and the
    count of pending analyses back where it was; the results are on the
    page unless the text is empty. *)
Theorem upload_success_state (w : World) (file : File) (m : Machine) (result : string) :
  validVideo file = true ->
  snd (analysisRun w file) = inr result ->
  coreReachable m ->
  jsonOutput (ui (fst (handleFileUpload w file m))) = result
  /\ shotPrompts (ui (fst (handleFileUpload w file m))) = derivePrompts result
  /\ error (ui (fst (handleFileUpload w file m))) = None
  /\ isLoading (ui (fst (handleFileUpload w file m))) = false
  /\ progressMessage (ui (fst (handleFileUpload w file m))) = ""
  /\ videoFile (ui (fst (handleFileUpload w file m))) = Some file
  /\ outstanding (fst (handleFileUpload w file m)) = outstanding m
  /\ resultsVisible (ui (fst (handleFileUpload w file m))) = JS.truthy result.
Proof.
  intros V R C.
  destruct (upload_settled w file m V) as (L & P & F & O & S & K).
  rewrite R in S. destruct S as [E J].
  split; [exact J|].
  split; [rewrite <- J; apply coreReachable_projection, K, C|].
  split; [exact E|]. split; [exact L|]. split; [exact P|].
  split; [exact F|]. split; [exact O|].
  unfold resultsVisible. now rewrite L, J.
Qed.

(** X7.  A video the reader cannot read, or one whose data URL carries
    nothing after its comma (an empty file), never reaches the remote: the
    upload ends with the fixed message for a thrown value that is not an
    error in the first case and with the message of [fileToBase64] in the
    second, and no request was sent. *)
Theorem upload_unreadable_file (w : World) (file : File) (m : Machine) :
  validVideo file = true ->
  optTruthy (API_KEY w) = true ->
  (forall what,
      readAsDataURL w file = inl (OtherValue what) ->
      error (ui (fst (handleFileUpload w file m)))
      = Some "An unknown error occurred during analysis."
      /\ count isRequest (snd (handleFileUpload w file m)) = 0%nat)
  /\ (forall header,
         readAsDataURL w file = inr (header ++ ",") ->
         (forall i, String.get i header <> Some JS.comma) ->
         error (ui (fst (handleFileUpload w file m)))
         = Some "Failed to convert file to base64."
         /\ count isRequest (snd (handleFileUpload w file m)) = 0%nat).
Proof.
  intros V K.
  assert (G : forall e,
             run (fileToBase64 w file) = ([EvReadFile file], inl e) ->
             error (ui (fst (handleFileUpload w file m)))
             = Some match e with
                    | ErrorObj message => message
                    | OtherValue _ => "An unknown error occurred during analysis."
                    end
             /\ count isRequest (snd (handleFileUpload w file m)) = 0%nat).
  { intros e E.
    assert (R : analysisRun w file = ([EvReadFile file], inl e))
      by (apply analysisRun_unreadable; [exact K | now rewrite E]).
    split.
    - destruct (upload_settled w file m V) as (_ & _ & _ & _ & S & _).
      rewrite R in S. exact (proj1 S).
    - rewrite (handleFileUpload_log _ _ _ V), R. reflexivity. }
  split.
  - intros what H. apply (G (OtherValue what)).
    now apply fileToBase64_reader_error.
  - intros header H N.
    apply (G (ErrorObj "Failed to convert file to base64.")).
    apply (fileToBase64_empty_payload w file header ""); auto.
Qed.

(** X8.  From the start of a video upload the page shows the preparing
    message; in a run that reaches the remote request, the message on the
    page while the request is pending is the one the analysis reported, and
    the spinner is on. *)
Theorem uploading_message_while_awaiting (w : World) (file : File) (m : Machine) :
  validVideo file = true ->
  reachesRequest (fst (analysisRun w file)) ->
  progressMessage (ui (dispatch (Upload file) m))
  = "Preparing video for analysis..."
  /\ progressMessage (ui (stateWhileAwaiting w file m)) = uploadingMessage
  /\ isLoading (ui (stateWhileAwaiting w file m)) = true
  /\ phase (ui (stateWhileAwaiting w file m)) = Analyzing.
Proof.
  intros V R.
  destruct (upload_begun file m V) as (_ & _ & _ & L1 & _ & P1).
  split; [exact P1|].
  assert (B : beforeRequest (fst (analysisRun w file))
              = [EvReadFile file; EvProgress uploadingMessage]).
  { destruct (analysisRun_cases w file) as
      [[K E] | [(K & e & _ & E) | (K & b & answer & outcome & _ & E & _)]];
      rewrite E in *; cbn [fst] in *.
    - now elim (no_request_in []).
    - now elim (no_request_in [EvReadFile file]).
    - reflexivity. }
  unfold stateWhileAwaiting. rewrite B. cbn [fold_left applyProgress].
  rewrite dispatch_Progress. cbn [withUi ui].
  split; [reflexivity|].
  assert (L : isLoading (setProgressMessage uploadingMessage
                           (ui (dispatch (Upload file) m))) = true)
    by exact L1.
  split; [exact L | now apply phase_analyzing].
Qed.

(** X9.  A file that is not a video starts nothing: the upload handler
    only sets its message and leaves the file, the text, the spinner and
    the pending analyses as they were, and no event of an analysis occurs.
    Dropped on the page such a file is ignored without a message; chosen
    through the file input it gets the message. *)
Theorem invalid_file_upload (file : File) (m : Machine) :
  validVideo file = false ->
  dispatch (Upload file) m
  = withUi (setError (Some "Please upload a valid video file.")) m
  /\ (forall w,
         handleFileUpload w file m
         = (withUi (setError (Some "Please upload a valid video file.")) m, []))
  /\ (forall rest, uiStep (DropFile (file :: rest)) m = m)
  /\ (forall rest,
         uiStep (ChooseFile (file :: rest)) m
         = withUi (setError (Some "Please upload a valid video file.")) m).
Proof.
  intros V.
  assert (D : dispatch (Upload file) m
              = withUi (setError (Some "Please upload a valid video file.")) m).
  { rewrite dispatch_same_text; cbn [handle ui]; unfold handleFileUpload_begin;
      rewrite V; reflexivity. }
  split; [exact D|]. split; [|split].
  - intros w. unfold handleFileUpload. rewrite V. cbn [negb]. now rewrite D.
  - intros rest. unfold uiStep. cbn [uiAction]. rewrite V.
    destruct (isLoading (ui m)); reflexivity.
  - intros rest. unfold uiStep. cbn [uiAction]. exact D.
Qed.

(** X10.  When the analysis returns the empty text and no other analysis
    is pending, the upload ends on a page with nothing to act on: the file
    is set, so the upload area is gone, and there is neither an error, nor
    a result, nor a spinner; no event is enabled. *)
Theorem empty_answer_dead_end (w : World) (file : File) (m : Machine) :
  validVideo file = true ->
  snd (analysisRun w file) = inr "" ->
  coreReachable m ->
  outstanding m = 0%nat ->
  forall ev, uiEnabled (fst (handleFileUpload w file m)) ev = false.
Proof.
  intros V R C Z ev.
  destruct (upload_settled w file m V) as (L & _ & F & O & S & _).
  rewrite R in S. destruct S as [E J].
  destruct ev; cbn [uiEnabled];
    unfold uploadAreaVisible, errorPanelVisible, resultsVisible,
      textareaMounted, cardsVisible, resultsVisible;
    rewrite ?J, ?E, ?L, ?F, ?O, ?Z; reflexivity.
Qed.

(* ================================================================ *)
(** ** Further properties: what the page shows *)
(* ================================================================ *)

Lemma handleShotPromptClick_keeps (sc : Scene) (m : Machine) :
  outstanding (handleShotPromptClick sc m) = outstanding m
  /\ jsonOutput (ui (handleShotPromptClick sc m)) = jsonOutput (ui m)
  /\ error (ui (handleShotPromptClick sc m)) = error (ui m)
  /\ isLoading (ui (handleShotPromptClick sc m)) = isLoading (ui m)
  /\ videoFile (ui (handleShotPromptClick sc m)) = videoFile (ui m)
  /\ shotPrompts (ui (handleShotPromptClick sc m)) = shotPrompts (ui m)
  /\ selectedSceneId (ui (handleShotPromptClick sc m)) = Some (scene_id sc).
Proof.
  unfold handleShotPromptClick.
  destruct (textareaMounted (ui m) && JS.truthy (jsonOutput (ui m)));
    [destruct (locate _ _)|]; repeat split.
Qed.

(** On the paths of the page the component is in one of two conditions:
    nothing pending and no spinner, with a text on show only beside a file
    and without an error; or one analysis pending under the spinner, with
    a file, without text and without error. *)
Lemma uiReachable_views (m : Machine) :
  uiReachable m ->
  (outstanding m = 0%nat
   /\ isLoading (ui m) = false
   /\ (JS.truthy (jsonOutput (ui m)) = true ->
       error (ui m) = None /\ isNone (videoFile (ui m)) = false))
  \/ (outstanding m = 1%nat
      /\ isLoading (ui m) = true
      /\ error (ui m) = None
      /\ jsonOutput (ui m) = ""
      /\ isNone (videoFile (ui m)) = false).
Proof.
  induction 1 as [|m ev _ IH En]; [left; repeat split; discriminate|].
  unfold uiStep.
  destruct (uiAction m ev) as [a|] eqn:A; [|exact IH].
  destruct (dispatch_keeps a m) as (O & J & E & L & F).
  rewrite O, J, E, L, F. clear O J E L F.
  destruct IH as [(Z & L0 & T) | (O1 & L1 & E1 & J1 & F1)].
  - destruct ev; cbn [uiAction] in A; cbn [uiEnabled] in En;
      try (rewrite Z in En; discriminate).
    + (* drop *)
      rewrite L0 in A. destruct files as [|file ?]; [discriminate|].
      destruct (validVideo file) eqn:V; [|discriminate].
      injection A as <-. right. cbn [handle outstanding ui].
      unfold handleFileUpload_begin. rewrite V, Z. repeat split.
    + (* choose *)
      destruct files as [|file ?]; [discriminate|].
      injection A as <-. cbn [handle outstanding ui].
      unfold handleFileUpload_begin.
      destruct (validVideo file); [right; rewrite Z; repeat split|].
      left. cbn [negb setError jsonOutput isLoading error videoFile].
      split; [exact Z|]. split; [exact L0|]. intros Tr.
      destruct (T Tr) as [_ Fv]. unfold uploadAreaVisible in En.
      rewrite Fv in En. discriminate.
    + (* try again *)
      injection A as <-. left. cbn [handle outstanding ui].
      split; [exact Z|]. split; [reflexivity|]. discriminate.
    + (* new video *)
      injection A as <-. left. cbn [handle outstanding ui].
      split; [exact Z|]. split; [reflexivity|]. discriminate.
    + (* tab *)
      injection A as <-. left. cbn [handle withUi outstanding ui].
      split; [exact Z|]. split; [exact L0|]. exact T.
    + (* type *)
      injection A as <-. left. cbn [handle withUi outstanding ui].
      unfold textareaMounted, resultsVisible in En.
      apply andb_prop in En. destruct En as [En _].
      apply andb_prop in En. destruct En as [_ Tr].
      destruct (T Tr) as [Ee Fv].
      split; [exact Z|]. split; [exact L0|]. intros _. split; assumption.
    + (* format *)
      injection A as <-. left. cbn [handle withUi outstanding ui].
      unfold textareaMounted, resultsVisible in En.
      apply andb_prop in En. destruct En as [En _].
      apply andb_prop in En. destruct En as [_ Tr].
      destruct (T Tr) as [Ee Fv].
      unfold handleFormatJson. destruct (JSON_parse (jsonOutput (ui m)));
        (split; [exact Z|]; split; [exact L0|]; intros _; split; assumption).
    + (* card *)
      destruct (nth_error (shotPrompts (ui m)) i); [|discriminate].
      injection A as <-. left. cbn [handle].
      destruct (handleShotPromptClick_keeps (scene s) m)
        as (-> & -> & -> & -> & -> & _).
      split; [exact Z|]. split; [exact L0|]. exact T.
  - destruct ev; cbn [uiEnabled] in En;
      unfold uploadAreaVisible, errorPanelVisible, resultsVisible,
        textareaMounted, cardsVisible, resultsVisible in En;
      rewrite ?L1, ?E1, ?J1 in En; cbn in En;
      rewrite ?andb_false_r in En; try discriminate;
      cbn [uiAction] in A; injection A as <-.
    + right. cbn [handle withUi ui outstanding]. now repeat split.
    + left. cbn [handle outstanding ui]. rewrite O1.
      split; [reflexivity|].
      unfold handleFileUpload_settled. destruct r as [err|result].
      * split; [reflexivity|]. cbn. rewrite J1. discriminate.
      * split; [reflexivity|]. cbn. intros _. split; assumption.
Qed.

(** X11.  On the paths of the page the spinner is on exactly while an
    analysis is pending, and while it is on no event of the user is
    enabled: the page only waits for the analysis. *)
Theorem ui_spinner_iff_pending (m : Machine) :
  uiReachable m ->
  (isLoading (ui m) = true <-> outstanding m = 1%nat)
  /\ (isLoading (ui m) = true ->
      forall ev, isUserEvent ev = true -> uiEnabled m ev = false).
Proof.
  intros R.
  destruct (uiReachable_views m R) as [(Z & L & _) | (O & L & E & J & F)].
  - split; [split; intros H; [congruence | lia]|]. intros H. congruence.
  - split; [split; auto|]. intros _ ev U.
    destruct ev; try discriminate; cbn [uiEnabled];
      unfold uploadAreaVisible, errorPanelVisible, resultsVisible,
        textareaMounted, cardsVisible, resultsVisible;
      rewrite ?L, ?E, ?J; cbn; now rewrite ?andb_false_r.
Qed.

(** X12.  On the paths of the page the results are never on show together
    with the error panel, the upload area or the spinner, and they are
    shown only beside a file. *)
Theorem ui_results_alone (m : Machine) :
  uiReachable m ->
  resultsVisible (ui m) = true ->
  errorPanelVisible (ui m) = false
  /\ uploadAreaVisible (ui m) = false
  /\ isLoading (ui m) = false
  /\ exists file, videoFile (ui m) = Some file.
Proof.
  intros R V. unfold resultsVisible in V. apply andb_prop in V.
  destruct V as [L T]. apply negb_true_iff in L.
  destruct (uiReachable_views m R) as [(_ & _ & I) | (_ & L1 & _)];
    [|congruence].
  destruct (I T) as [E F].
  unfold errorPanelVisible, uploadAreaVisible. rewrite E, F.
  repeat split; try assumption.
  destruct (videoFile (ui m)) as [file|]; [now exists file | discriminate].
Qed.

Lemma dispatch_Reset (m : Machine) :
  dispatch Reset m = mkMachine initialState (outstanding m) None None.
Proof.
  unfold dispatch. cbn [handle ui].
  destruct (String.eqb _ _); reflexivity.
Qed.

(** X13.  On the paths of the page both reset buttons, where they are
    shown, lead back to the initial component exactly: no file, no URL, no
    text, no prompts, no error, no selection, the first tab, nothing
    pending. *)
Theorem ui_reset_restores_initial (m : Machine) (ev : UiEvent) :
  uiReachable m ->
  ev = ClickTryAgain \/ ev = ClickNewVideo ->
  uiEnabled m ev = true ->
  uiStep ev m = initialMachine.
Proof.
  intros R Hev En.
  assert (S : uiStep ev m = dispatch Reset m) by (destruct Hev; subst; reflexivity).
  rewrite S, dispatch_Reset.
  destruct (uiReachable_views m R) as [(Z & _) | (_ & L & E & J & _)].
  - now rewrite Z.
  - exfalso. destruct Hev; subst ev; cbn [uiEnabled] in En;
      unfold errorPanelVisible, resultsVisible in En;
      rewrite ?E, ?L in En; discriminate.
Qed.

(* ================================================================ *)
(** ** Further properties: cards, edits and formatting *)
(* ================================================================ *)

Lemma Tab_eqb_eq (a b : Tab) : Tab_eqb a b = true <-> a = b.
Proof. destruct a, b; simpl; split; congruence. Qed.

Lemma uiReachable_coreReachable (m : Machine) : uiReachable m -> coreReachable m.
Proof.
  induction 1 as [|m ev _ IH _]; [constructor|].
  unfold uiStep. destruct (uiAction m ev); [now constructor | exact IH].
Qed.

(** X14.  A click on a card of the page records the identifier of the
    card's scene and, when the video element is there, sends the video to
    the start of the scene; it changes nothing else.  The tab stays the
    prompts tab and the selection of the text area stays as it was: the
    text area exists only in the JSON tab, the cards only in the prompts
    tab, so the locating branch of the handler is not taken. *)
Theorem card_click_on_page (m : Machine) (i : nat) (shot : ShotPrompt) :
  uiEnabled m (ClickCard i) = true ->
  nth_error (shotPrompts (ui m)) i = Some shot ->
  uiStep (ClickCard i) m
  = mkMachine (setSelectedSceneId (Some (scene_id (scene shot))) (ui m))
      (outstanding m)
      (if videoMounted (ui m) then Some (timestamp_start_seconds (scene shot))
       else playhead m)
      (selectionRange m).
Proof.
  intros En N. unfold uiStep. cbn [uiAction]. rewrite N.
  cbn [uiEnabled] in En. apply andb_prop in En. destruct En as [En _].
  unfold cardsVisible in En. apply andb_prop in En. destruct En as [Rv Tb].
  apply Tab_eqb_eq in Tb.
  assert (Tm : textareaMounted (ui m) = false).
  { unfold textareaMounted. rewrite Tb. cbn. apply andb_false_r. }
  rewrite dispatch_same_text; cbn [handle]; unfold handleShotPromptClick;
    rewrite Tm; reflexivity.
Qed.

Lemma derivePrompts_shots (text : string) (shot : ShotPrompt) :
  In shot (derivePrompts text) -> shot = shotPromptOf (scene shot).
Proof.
  unfold derivePrompts, promptEffect. cbn [jsonOutput setJsonOutput].
  destruct (JS.truthy text); [|intros []].
  destruct (promptsOfText text) as [e|prompts] eqn:P; [intros []|].
  cbn [shotPrompts setActiveTab setShotPrompts].
  unfold promptsOfText in P.
  destruct (JSON_parse text) as [e|parsed]; [discriminate|].
  destruct (asVideoAnalysis parsed) as [e|analysis]; [discriminate|].
  injection P as <-. unfold synthesize. intros H.
  apply in_map_iff in H. destruct H as (sc & <- & _). reflexivity.
Qed.

(** X15.  After a click on a card on a path of the page, the cards shown
    as selected are exactly those whose identifier is the one of the
    clicked card: the clicked card is, and so is every other card that
    shares its identifier. *)
Theorem selected_cards_share_id (m : Machine) (i : nat) (shot : ShotPrompt) :
  uiReachable m ->
  uiEnabled m (ClickCard i) = true ->
  nth_error (shotPrompts (ui m)) i = Some shot ->
  shotPrompts (ui (uiStep (ClickCard i) m)) = shotPrompts (ui m)
  /\ isSelected (ui (uiStep (ClickCard i) m)) shot = true
  /\ forall other,
       In other (shotPrompts (ui m)) ->
       isSelected (ui (uiStep (ClickCard i) m)) other = (id shot =? id other).
Proof.
  intros R En N.
  assert (S : selectedSceneId (ui (uiStep (ClickCard i) m)) = Some (id shot)).
  { unfold uiStep. cbn [uiAction]. rewrite N.
    destruct (dispatch_keeps_rest (ShotClick (scene shot)) m) as (_ & _ & -> & _).
    cbn [handle].
    destruct (handleShotPromptClick_keeps (scene shot) m) as (_ & _ & _ & _ & _ & _ & ->).
    apply nth_error_In in N.
    rewrite (coreReachable_projection m (uiReachable_coreReachable m R)) in N.
    apply derivePrompts_shots in N. now rewrite N at 2. }
  split; [|split].
  - unfold uiStep. cbn [uiAction]. rewrite N.
    rewrite dispatch_same_text; cbn [handle];
      now destruct (handleShotPromptClick_keeps (scene shot) m)
        as (_ & J & _ & _ & _ & P & _).
  - unfold isSelected. rewrite S. apply Z.eqb_refl.
  - intros other _. unfold isSelected. now rewrite S.
Qed.

(** X16.  An edit that changes the text into one that parses and reads as
    an analysis puts the synthesized prompts in place and switches to the
    prompts tab, which takes the text area off the page; an edit that
    changes the text into one that does not empties the prompt list and
    leaves the tab alone. *)
Theorem edit_switches_tab_when_text_reads (m : Machine) (text : string) :
  text <> jsonOutput (ui m) ->
  (forall parsed analysis,
      JS.truthy text = true ->
      JSON_parse text = inr parsed ->
      asVideoAnalysis parsed = inr analysis ->
      activeTab (ui (dispatch (EditJson text) m)) = TabPrompts
      /\ textareaMounted (ui (dispatch (EditJson text) m)) = false
      /\ shotPrompts (ui (dispatch (EditJson text) m)) = synthesize analysis)
  /\ (forall e,
         promptsOfText text = inl e ->
         activeTab (ui (dispatch (EditJson text) m)) = activeTab (ui m)
         /\ shotPrompts (ui (dispatch (EditJson text) m)) = []).
Proof.
  intros D.
  assert (S : dispatch (EditJson text) m
              = withUi promptEffect (withUi (setJsonOutput text) m)).
  { unfold dispatch. cbn [handle withUi ui jsonOutput setJsonOutput].
    apply String.eqb_neq in D. now rewrite D. }
  rewrite S. cbn [withUi ui]. unfold promptEffect.
  cbn [jsonOutput setJsonOutput]. split.
  - intros parsed analysis T P A. unfold promptsOfText. rewrite T, P, A.
    unfold textareaMounted. cbn. now rewrite andb_false_r.
  - intros e P. rewrite P. destruct (JS.truthy text); split; reflexivity.
Qed.

(** X17.  Formatting leaves everything as it is when the text does not
    parse.  On a platform where writing a value and parsing it gives the
    value back, formatting a second time changes no text, and, when the
    written form is never empty, formatting a text on show does not change
    the prompt list. *)
Theorem format_json_stable :
  (forall m e, JSON_parse (jsonOutput (ui m)) = inl e -> dispatch FormatJson m = m)
  /\ ((forall v, JSON_parse (JSON_stringify v 2) = inr v) ->
      (forall m,
          jsonOutput (ui (dispatch FormatJson (dispatch FormatJson m)))
          = jsonOutput (ui (dispatch FormatJson m)))
      /\ ((forall v, JS.truthy (JSON_stringify v 2) = true) ->
          forall m,
            coreReachable m ->
            JS.truthy (jsonOutput (ui m)) = true ->
            shotPrompts (ui (dispatch FormatJson m)) = shotPrompts (ui m))).
Proof.
  assert (J : forall m,
             jsonOutput (ui (dispatch FormatJson m))
             = match JSON_parse (jsonOutput (ui m)) with
               | inr parsed => JSON_stringify parsed 2
               | inl _ => jsonOutput (ui m)
               end).
  { intros m. destruct (dispatch_keeps FormatJson m) as (_ & -> & _).
    cbn [handle withUi ui]. unfold handleFormatJson.
    destruct (JSON_parse (jsonOutput (ui m))); reflexivity. }
  split; [|intros RT; split].
  - intros m e P.
    assert (H : handle FormatJson m = m).
    { cbn [handle]. unfold withUi, handleFormatJson. rewrite P. now destruct m. }
    rewrite dispatch_same_text; rewrite H; reflexivity.
  - intros m. rewrite (J (dispatch FormatJson m)), (J m).
    destruct (JSON_parse (jsonOutput (ui m))) as [e|parsed] eqn:P.
    + now rewrite P.
    + now rewrite RT.
  - intros NE m C T.
    rewrite (coreReachable_projection _ (core_step m FormatJson C)).
    rewrite (coreReachable_projection m C), J.
    destruct (JSON_parse (jsonOutput (ui m))) as [e|parsed] eqn:P;
      [reflexivity|].
    unfold derivePrompts, promptEffect, promptsOfText.
    cbn [jsonOutput setJsonOutput]. rewrite NE, T, RT, P.
    destruct (asVideoAnalysis parsed); reflexivity.
Qed.

(* ================================================================ *)
(** ** Further properties: the download, the object URLs *)
(* ================================================================ *)

Lemma truthy_append_r (a b : string) : JS.truthy b = true -> JS.truthy (a ++ b) = true.
Proof. destruct a; [auto | reflexivity]. Qed.

(** X18.  The download handler does nothing when the text is empty.
    Otherwise the file it offers holds the current text as it is, and its
    name is a stem followed by [_analysis.json]: the stem is the name of
    the video file up to its first dot (all of it when it has none), or
    [undefined] when there is no file.  The name [analysis.json], which the
    source gives as a fallback, is never used. *)
Theorem download_name_and_content (st : AppState) :
  (handleDownloadJson st = None <-> jsonOutput st = "")
  /\ (forall name content,
         handleDownloadJson st = Some (name, content) ->
         content = jsonOutput st
         /\ name <> "analysis.json"
         /\ exists stem,
              name = stem ++ "_analysis.json"
              /\ match videoFile st with
                 | None => stem = "undefined"
                 | Some f =>
                     (forall i, String.get i stem <> Some dot)
                     /\ exists rest,
                          file_name f = stem ++ rest
                          /\ (rest = "" \/ exists r, rest = String dot r)
                 end).
Proof.
  unfold handleDownloadJson. split.
  - destruct (jsonOutput st); simpl; split; congruence.
  - intros name content H.
    destruct (JS.truthy (jsonOutput st)); [|discriminate].
    cbn [negb] in H. injection H as <- <-. split; [reflexivity|].
    unfold downloadName.
    set (stem := match videoFile st with
                 | Some f =>
                     match nth_error (JS.split dot (file_name f)) 0 with
                     | Some piece => piece
                     | None => "undefined"
                     end
                 | None => "undefined"
                 end).
    rewrite truthy_append_r by reflexivity. split.
    + intros E. apply (f_equal String.length) in E.
      rewrite length_append in E. simpl in E. lia.
    + exists stem. split; [reflexivity|]. subst stem.
      destruct (videoFile st) as [f|]; [|reflexivity].
      destruct (split_cases dot (file_name f)) as [[N R] | (h & t & S & N & R)];
        rewrite R; cbn [nth_error].
      * split; [exact N|]. exists "". rewrite append_nil_r. auto.
      * split; [exact N|]. exists (String dot t). eauto.
Qed.

Lemma urlStep_invariant (a : Action) (s : UrlStore) :
  live s = match current s with Some u => [u] | None => [] end ->
  (forall u, current s = Some u -> (u < minted s)%nat) ->
  live (urlStep a s)
  = match current (urlStep a s) with Some u => [u] | None => [] end
  /\ (forall u, current (urlStep a s) = Some u -> (u < minted (urlStep a s))%nat).
Proof.
  intros L F. destruct a; cbn [urlStep]; try (split; assumption).
  - destruct (validVideo file); cbn iota; [|split; assumption].
    cbn [live current minted]. split; [|intros u [= <-]; lia].
    rewrite L. destruct (current s) as [c|]; [|reflexivity].
    specialize (F c eq_refl). cbn [revoke filter].
    replace (minted s =? c)%nat with false by (symmetry; apply Nat.eqb_neq; lia).
    now rewrite Nat.eqb_refl.
  - destruct (current s) as [c|] eqn:C;
      [|split; [now rewrite C | intros u H; rewrite C in H; discriminate]].
    cbn [live current minted]. split; [|discriminate].
    rewrite L. cbn [revoke filter]. now rewrite Nat.eqb_refl.
Qed.

Lemma handle_videoUrl (a : Action) (m : Machine) :
  isNone (videoUrl (ui (handle a m)))
  = match a with
    | Upload file => if validVideo file then false else isNone (videoUrl (ui m))
    | Reset => true
    | _ => isNone (videoUrl (ui m))
    end.
Proof.
  destruct a; cbn [handle withUi ui]; try reflexivity.
  - unfold handleFileUpload_begin. destruct (validVideo file); reflexivity.
  - unfold handleFileUpload_settled. destruct r as [[?|?]|?]; reflexivity.
  - unfold handleFormatJson. destruct (JSON_parse _); reflexivity.
  - unfold handleShotPromptClick.
    destruct (textareaMounted (ui m) && JS.truthy (jsonOutput (ui m)));
      [destruct (locate _ _)|]; reflexivity.
Qed.

(** X19.  After every handler call and its render, whatever the order of
    the calls, at most one object URL is live, and one is live exactly when
    [videoUrl] holds one: a new upload ends the URL of the file before,
    and reset leaves none. *)
Theorem at_most_one_live_url (actions : list Action) :
  live (urlsAfter actions)
  = match current (urlsAfter actions) with Some u => [u] | None => [] end
  /\ (List.length (live (urlsAfter actions)) <= 1)%nat
  /\ isNone (current (urlsAfter actions))
     = isNone (videoUrl (ui (runActions actions)))
  /\ live (urlsAfter (actions ++ [Reset])) = [].
Proof.
  assert (I : forall l,
             (live (urlsAfter l)
              = match current (urlsAfter l) with Some u => [u] | None => [] end
              /\ (forall u, current (urlsAfter l) = Some u ->
                            (u < minted (urlsAfter l))%nat))
             /\ isNone (current (urlsAfter l))
                = isNone (videoUrl (ui (runActions l)))).
  { intros l. induction l as [|a l [[L F] V]] using rev_ind.
    - repeat split. intros u [=].
    - unfold urlsAfter, runActions in *. rewrite !fold_left_app.
      cbn [fold_left]. split; [now apply urlStep_invariant|].
      destruct (dispatch_keeps_rest a
                  (fold_left (fun m a => dispatch a m) l initialMachine))
        as (_ & -> & _).
      rewrite handle_videoUrl, <- V.
      destruct a; cbn [urlStep]; try reflexivity.
      + destruct (validVideo file); reflexivity.
      + destruct (current (fold_left (fun s a => urlStep a s) l noUrls)) eqn:C;
          [reflexivity | now rewrite C]. }
  destruct (I actions) as [[L F] V]. split; [exact L|].
  split; [rewrite L; destruct (current _); simpl; lia|].
  split; [exact V|].
  destruct (I (actions ++ [Reset])%list) as [[L' _] _]. rewrite L'.
  unfold urlsAfter. rewrite fold_left_app. cbn [fold_left urlStep].
  destruct (current (fold_left (fun s a => urlStep a s) actions noUrls)) eqn:C;
    [reflexivity | now rewrite C].
Qed.

(* ================================================================ *)
(** ** Further properties: the span of the locator, the time format *)
(* ================================================================ *)

Lemma length_substring (n m : nat) (s : string) :
  (n + m <= String.length s)%nat -> String.length (String.substring n m s) = m.
Proof.
  revert n m; induction s as [|c s IH]; intros n m H; simpl in H.
  - assert (n = 0%nat) by lia. assert (m = 0%nat) by lia. now subst.
  - destruct n as [|n]; simpl.
    + destruct m as [|m]; [reflexivity|]. simpl. f_equal.
      apply (IH 0%nat). lia.
    + apply IH. lia.
Qed.

Lemma toString_nonempty (n : Z) : (1 <= String.length (JS.toString n))%nat.
Proof.
  unfold JS.toString, NilZero.string_of_int, NilZero.string_of_uint.
  destruct (Z.to_int n) as [d|d]; destruct d; simpl; lia.
Qed.

Lemma sceneIdentifier_length (sceneId : Z) :
  String.length (sceneIdentifier sceneId)
  = (12 + String.length (JS.toString sceneId))%nat.
Proof. reflexivity. Qed.

(** X20.  A span the locator returns lies inside the text, is at least as
    long as the pattern, hence at least 13 characters, and the text it
    covers has exactly that length and no line break: the selection is a
    piece of one line. *)
Theorem locate_span_in_one_line (text : string) (sceneId : Z) (s e : Z) :
  locate text sceneId = Some (s, e) ->
  0 <= s
  /\ s + Z.of_nat (String.length (sceneIdentifier sceneId)) <= e
  /\ e <= Z.of_nat (String.length text)
  /\ 13 <= e - s
  /\ Z.of_nat (String.length (slice text s e)) = e - s
  /\ forall i, String.get i (slice text s e) <> Some JS.newline.
Proof.
  intros H.
  destruct (locate_cases text sceneId) as
    [[R _] | (r & e' & R & O & _ & L & N & G)]; rewrite R in H;
    [discriminate|].
  injection H as <- <-.
  destruct (span_covers_pattern text sceneId r e' O L N G) as [rest S].
  assert (Ls : String.length (slice text (Z.of_nat r) (Z.of_nat e'))
               = (e' - r)%nat).
  { unfold slice. rewrite Nat2Z.id.
    replace (Z.to_nat (Z.of_nat e' - Z.of_nat r)) with (e' - r)%nat by lia.
    apply length_substring. lia. }
  assert (Lp : (String.length (sceneIdentifier sceneId) <= e' - r)%nat).
  { rewrite <- Ls, S, length_append. lia. }
  pose proof (toString_nonempty sceneId) as T.
  rewrite sceneIdentifier_length in *.
  split; [lia|]. split; [lia|]. split; [lia|]. split; [lia|].
  split; [rewrite Ls; lia|].
  intros i. unfold slice. rewrite Nat2Z.id.
  replace (Z.to_nat (Z.of_nat e' - Z.of_nat r)) with (e' - r)%nat by lia.
  destruct (Nat.lt_ge_cases i (e' - r)) as [Hi|Hi].
  - rewrite String.substring_correct1 by exact Hi. apply N. lia.
  - rewrite String.substring_correct2 by exact Hi. discriminate.
Qed.

Lemma toString_inj (a b : Z) : JS.toString a = JS.toString b -> a = b.
Proof.
  unfold JS.toString. intros H.
  assert (I : forall n, NilZero.int_of_string (NilZero.string_of_int (Z.to_int n))
                        = Some (Z.to_int n)).
  { intros n. apply NilZero.isi; destruct n; simpl; try discriminate;
      intros [= E]; now apply (Unsigned.to_uint_nonnil p). }
  apply DecimalZ.to_int_inj.
  apply (f_equal NilZero.int_of_string) in H. rewrite !I in H. congruence.
Qed.

Lemma append_inj_same_length (a b x y : string) :
  String.length x = String.length y -> a ++ x = b ++ y -> a = b /\ x = y.
Proof.
  revert b; induction a as [|c a IH]; intros b L E.
  - destruct b as [|d b]; [auto|]. simpl in E.
    apply (f_equal String.length) in E. simpl in E.
    rewrite length_append in E. lia.
  - destruct b as [|d b]; simpl in E.
    + apply (f_equal String.length) in E. simpl in E.
      rewrite length_append in E. lia.
    + injection E as -> E. destruct (IH b L E) as [-> ->]. auto.
Qed.

Lemma digit_inj (a b : Z) : 0 <= a < 10 -> 0 <= b < 10 -> digit a = digit b -> a = b.
Proof.
  intros Ha Hb E. unfold digit in E.
  apply (f_equal Ascii.nat_of_ascii) in E.
  rewrite !Ascii.nat_ascii_embedding in E by lia. lia.
Qed.

Lemma twoDigits_inj (a b : Z) :
  0 <= a < 60 -> 0 <= b < 60 -> twoDigits a = twoDigits b -> a = b.
Proof.
  intros Ha Hb E. unfold twoDigits in E. injection E as E1 E0.
  assert (Q : a / 10 = b / 10).
  { apply digit_inj; [| |exact E1].
    - split; [apply Z.div_pos; lia | apply Z.div_lt_upper_bound; lia].
    - split; [apply Z.div_pos; lia | apply Z.div_lt_upper_bound; lia]. }
  assert (M : a mod 10 = b mod 10).
  { apply digit_inj; [apply Z.mod_pos_bound; lia | apply Z.mod_pos_bound; lia|].
    exact E0. }
  rewrite (Z.div_mod a 10), (Z.div_mod b 10) by lia. now rewrite Q, M.
Qed.

(** X21.  Two times that are not negative and below 2^53 are printed
    alike exactly when they lie in the same whole second: the text of a
    time tells its whole second, and nothing of the fraction. *)
Theorem formatTime_tells_whole_second (a b : Q) :
  (0 <= a)%Q -> (a < inject_Z (2 ^ 53))%Q ->
  (0 <= b)%Q -> (b < inject_Z (2 ^ 53))%Q ->
  (formatTime a = formatTime b <-> Qfloor a = Qfloor b).
Proof.
  intros Ha _ Hb _. split.
  - rewrite !formatTime_format_spec by assumption. unfold format_spec.
    rewrite !Qfloor_over_60.
    pose proof (Qfloor_nonneg _ Ha) as Na. pose proof (Qfloor_nonneg _ Hb) as Nb.
    set (x := Qfloor a) in *. set (y := Qfloor b) in *. intros E.
    apply append_inj_same_length in E; [|reflexivity].
    destruct E as [E1 E2]. injection E2 as E2.
    apply toString_inj in E1.
    assert (M : x mod 60 = y mod 60).
    { apply twoDigits_inj; try (apply Z.mod_pos_bound; lia).
      unfold twoDigits. now rewrite E2, H. }
    rewrite (Z.div_mod x 60), (Z.div_mod y 60) by lia. now rewrite E1, M.
  - intros E. unfold formatTime, JS.floor. now rewrite E.
Qed.

Lemma readyAfter_reachable (result : string) : uiReachable (readyAfter result).
Proof.
  unfold readyAfter. apply ui_step; [apply ui_step; [apply ui_init|]|];
    reflexivity.
Qed.

(* ================================================================ *)
(** ** Further properties: what a prompt mentions *)
(* ================================================================ *)

Lemma includes_refl (a : string) : includes a a.
Proof. exists "", "". now rewrite append_nil_r. Qed.

Lemma includes_append_l (a b piece : string) :
  includes a piece -> includes (a ++ b) piece.
Proof.
  intros (x & y & ->). exists x, (y ++ b). now rewrite !append_assoc.
Qed.

Lemma includes_append_r (a b piece : string) :
  includes b piece -> includes (a ++ b) piece.
Proof.
  intros (x & y & ->). exists (a ++ x), y. now rewrite !append_assoc.
Qed.

Lemma join_includes (sep : string) (xs : list string) (x : string) :
  In x xs -> includes (JS.join sep xs) x.
Proof.
  induction xs as [|y rest IH]; [intros []|].
  intros [<- | H]; cbn [JS.join].
  - destruct rest; [apply includes_refl|].
    apply includes_append_l, includes_refl.
  - destruct rest as [|z rest]; [destruct H|].
    apply includes_append_r, includes_append_r, IH, H.
Qed.

(** X22.  The prompt of a scene leaves nothing of the scene out: it
    contains the description, every object, every action and, for every
    entry of the dialogue, the speaker and the quoted line. *)
Theorem prompt_mentions_every_field (sc : Scene) :
  includes (promptText sc) (description sc)
  /\ (forall o, In o (objects sc) -> includes (promptText sc) o)
  /\ (forall a, In a (actions sc) -> includes (promptText sc) a)
  /\ (forall entries d,
         dialogue sc = Some entries -> In d entries ->
         includes (promptText sc)
           (speaker d ++ ": " ++ JS.str JS.dquote ++ line d ++ JS.str JS.dquote)).
Proof.
  rewrite promptText_prompt_spec. unfold prompt_spec. split; [|split; [|split]].
  - apply includes_append_l. unfold part_shot.
    apply includes_append_r, includes_append_l, includes_refl.
  - intros o H. apply includes_append_r, includes_append_r, includes_append_l.
    unfold part_objects.
    apply includes_append_r, includes_append_l. now apply join_includes.
  - intros a H. apply includes_append_r, includes_append_r, includes_append_r.
    unfold part_actions.
    apply includes_append_r, includes_append_l. now apply join_includes.
  - intros entries d E H. apply includes_append_r, includes_append_l.
    unfold part_dialogue. rewrite E.
    destruct entries as [|d0 rest]; [destruct H|].
    apply includes_append_r, includes_append_l.
    apply join_includes. change (In (dialogueEntry d) (map dialogueEntry (d0 :: rest))).
    now apply in_map.
Qed.

(** X23.  When the analysis of a video returns a text that is not empty,
    parses and reads as an analysis, the upload ends on the prompts tab
    with the cards on show, one for each scene of the analysis and in
    their order. *)
Theorem upload_shows_one_card_per_scene
    (w : World) (file : File) (m : Machine) (result : string)
    (parsed : JSValue) (analysis : VideoAnalysis) :
  validVideo file = true ->
  snd (analysisRun w file) = inr result ->
  JS.truthy result = true ->
  JSON_parse result = inr parsed ->
  asVideoAnalysis parsed = inr analysis ->
  cardsVisible (ui (fst (handleFileUpload w file m))) = true
  /\ shotPrompts (ui (fst (handleFileUpload w file m)))
     = map shotPromptOf (scenes analysis)
  /\ List.length (shotPrompts (ui (fst (handleFileUpload w file m))))
     = List.length (scenes analysis).
Proof.
  intros V R T P A. rewrite (handleFileUpload_state _ _ _ V), R.
  set (m2 := fold_left applyProgress (fst (analysisRun w file))
               (dispatch (Upload file) m)).
  assert (J2 : jsonOutput (ui m2) = "").
  { unfold m2.
    destruct (fold_applyProgress_keeps (fst (analysisRun w file))
                (dispatch (Upload file) m)) as (_ & -> & _).
    now destruct (upload_begun file m V) as (_ & -> & _). }
  assert (D : dispatch (Settled (inr result)) m2
              = withUi promptEffect (handle (Settled (inr result)) m2)).
  { unfold dispatch. cbn [handle ui handleFileUpload_settled].
    cbn [jsonOutput setProgressMessage setIsLoading setJsonOutput].
    rewrite J2. destruct result; [discriminate | reflexivity]. }
  rewrite D. cbn [withUi ui handle].
  assert (Hj : jsonOutput (handleFileUpload_settled (inr result) (ui m2))
               = result) by reflexivity.
  assert (Hl : isLoading (handleFileUpload_settled (inr result) (ui m2))
               = false) by reflexivity.
  unfold promptEffect, promptsOfText. rewrite Hj, T, P, A.
  unfold cardsVisible, resultsVisible.
  cbn [shotPrompts activeTab isLoading jsonOutput setActiveTab setShotPrompts].
  rewrite Hl, Hj, T. split; [reflexivity|]. split; [reflexivity|].
  unfold synthesize. apply length_map.
Qed.
End Session.

(* ================================================================== *)
(** ** The statements at the sample data *)
(* ================================================================== *)

(** The hypotheses of the statements above hold at the sample data, with
    the platform of [Sample] for the parameters of the section. *)

Lemma promptText_concatenation_witness :
  objects Sample.sceneB = [] /\ actions Sample.sceneB = []
  /\ exists before,
       promptText Sample.sceneB = before ++ "Prominent objects: . Actions: .".
Proof.
  split; [reflexivity|]. split; [reflexivity|].
  apply (proj1 (proj2 promptText_concatenation) Sample.sceneB); reflexivity.
Defined.

Lemma formatTime_floor_minutes_seconds_witness :
  (0 <= 5999 # 10)%Q /\ (5999 # 10 < inject_Z (2 ^ 53))%Q
  /\ formatTime (5999 # 10) = format_spec (5999 # 10).
Proof.
  assert (H : (0 <= 5999 # 10)%Q) by (unfold Qle; simpl; lia).
  assert (B : (5999 # 10 < inject_Z (2 ^ 53))%Q) by reflexivity.
  split; [exact H|]. split; [exact B|].
  exact (proj1 formatTime_floor_minutes_seconds (5999 # 10) H B).
Defined.

Lemma locate_span_spec_witness :
  Z.abs 10 < 2 ^ 53
  /\ exists rest,
       slice Pretty.text 46 61
       = String "034"%char ("scene_id" ++ String "034"%char ": 10") ++ rest.
Proof.
  assert (B : Z.abs 10 < 2 ^ 53) by reflexivity.
  split; [exact B|].
  pose proof (proj1 locate_span_spec Pretty.text 10 _ B eq_refl) as H.
  change (locate Pretty.text 10) with (Some (46, 61)) in H.
  exact (proj2 (proj2 (proj2 (proj2 (proj2 H))))).
Defined.

Lemma locate_first_undelimited_occurrence_witness :
  Z.abs 1 < 2 ^ 53 /\ locate Pretty.text 1 = Some (46, 61) /\ Z.of_nat 2 < 46
  /\ ~ occursAt (String "034"%char ("scene_id" ++ String "034"%char ": 1"))
         Pretty.text 2.
Proof.
  assert (B : Z.abs 1 < 2 ^ 53) by reflexivity.
  assert (H : locate Pretty.text 1 = Some (46, 61)) by reflexivity.
  assert (L : Z.of_nat 2 < 46) by (simpl; lia).
  split; [exact B|]. split; [exact H|]. split; [exact L|].
  exact (proj1 locate_first_undelimited_occurrence Pretty.text 1 _ 46 61
           B eq_refl H 2%nat L).
Defined.

Lemma shotPrompts_projection_of_jsonOutput_witness :
  Sample.parse "oops" = inl (ErrorObj "Unexpected token")
  /\ derivePrompts VideoAnalysis Sample.parse Sample.cast "oops" = [].
Proof.
  assert (H : Sample.parse "oops" = inl (ErrorObj "Unexpected token"))
    by reflexivity.
  split; [exact H|].
  exact (proj1 (proj2 (proj2
           (shotPrompts_projection_of_jsonOutput VideoAnalysis Sample.parse
              Sample.stringify Sample.cast Sample.objectURL)))
           "oops" _ H).
Defined.

Lemma analyze_missing_key_and_remote_error_witness :
  optTruthy (API_KEY Sample.noKey) = false
  /\ analysisRun VideoAnalysis Sample.parse Sample.stringify Sample.noKey
       Sample.video
     = ([], inl (ErrorObj "API_KEY environment variable not set.")).
Proof.
  split; [reflexivity|].
  apply (proj1 (analyze_missing_key_and_remote_error VideoAnalysis Sample.parse
                  Sample.stringify Sample.cast Sample.objectURL)).
  reflexivity.
Defined.

Lemma analyze_formats_or_returns_raw_witness :
  optTruthy (API_KEY Sample.world) = true
  /\ encodes Sample.world Sample.video "AAAA"
  /\ generateContent Sample.world (requestFor Sample.video "AAAA") = inr "{dog}"
  /\ snd (analysisRun VideoAnalysis Sample.parse Sample.stringify Sample.world
            Sample.video)
     = inr (Sample.stringify Sample.analysis 2).
Proof.
  split; [reflexivity|]. split; [reflexivity|]. split; [reflexivity|].
  exact (analyze_formats_or_returns_raw VideoAnalysis Sample.parse
           Sample.stringify Sample.world Sample.video "AAAA" "{dog}"
           eq_refl eq_refl eq_refl).
Defined.

Lemma sample_run_reaches_request :
  reachesRequest
    (fst (analysisRun VideoAnalysis Sample.parse Sample.stringify Sample.world
            Sample.video)).
Proof.
  exists (requestFor Sample.video "AAAA"). simpl. right. right. left. reflexivity.
Defined.

Lemma analyze_progress_once_before_request_witness :
  reachesRequest
    (fst (analysisRun VideoAnalysis Sample.parse Sample.stringify Sample.world
            Sample.video))
  /\ progressCalls
       (fst (analysisRun VideoAnalysis Sample.parse Sample.stringify
               Sample.world Sample.video)) = 1%nat.
Proof.
  split; [exact sample_run_reaches_request|].
  exact (proj1 (analyze_progress_once_before_request VideoAnalysis Sample.parse
                  Sample.stringify Sample.cast Sample.objectURL Sample.world
                  Sample.video sample_run_reaches_request)).
Defined.

(** C8, as the claim has it, fails: the sample run reaches the request and
    the callback is called once, not twice, and never during the wait. *)
Lemma analyze_progress_not_twice :
  reachesRequest
    (fst (analysisRun VideoAnalysis Sample.parse Sample.stringify Sample.world
            Sample.video))
  /\ progressCalls
       (fst (analysisRun VideoAnalysis Sample.parse Sample.stringify
               Sample.world Sample.video)) = 1%nat
  /\ progressWhileAwaiting
       (fst (analysisRun VideoAnalysis Sample.parse Sample.stringify
               Sample.world Sample.video)) = 0%nat
  /\ ~ progressTwice
         (fst (analysisRun VideoAnalysis Sample.parse Sample.stringify
                 Sample.world Sample.video))
  /\ ~ progressTwice
         (snd (handleFileUpload VideoAnalysis Sample.parse Sample.stringify
                 Sample.cast Sample.objectURL Sample.world Sample.video
                 initialMachine)).
Proof.
  split; [exact sample_run_reaches_request|].
  split; [reflexivity|]. split; [reflexivity|]. split.
  - intros (H & _). vm_compute in H. lia.
  - intros (_ & _ & H). vm_compute in H. lia.
Qed.

Lemma sample_upload_reachable :
  uiReachable VideoAnalysis Sample.parse Sample.stringify Sample.cast
    Sample.objectURL
    (uiStep VideoAnalysis Sample.parse Sample.stringify Sample.cast
       Sample.objectURL (ChooseFile [Sample.video]) initialMachine).
Proof. apply ui_step; [apply ui_init | reflexivity]. Defined.

Lemma ui_single_outstanding_analysis_witness :
  uiReachable VideoAnalysis Sample.parse Sample.stringify Sample.cast
    Sample.objectURL
    (uiStep VideoAnalysis Sample.parse Sample.stringify Sample.cast
       Sample.objectURL (ChooseFile [Sample.video]) initialMachine)
  /\ (outstanding
        (uiStep VideoAnalysis Sample.parse Sample.stringify Sample.cast
           Sample.objectURL (ChooseFile [Sample.video]) initialMachine)
      <= 1)%nat.
Proof.
  split; [exact sample_upload_reachable|].
  exact (proj1 (ui_single_outstanding_analysis VideoAnalysis Sample.parse
                  Sample.stringify Sample.cast Sample.objectURL _
                  sample_upload_reachable)).
Defined.

(** C9, as the claim has it, fails: called during an analysis, the upload
    handler starts a second one. *)
Lemma core_upload_overlapping_requests :
  let upload :=
    dispatch VideoAnalysis Sample.parse Sample.stringify Sample.cast
      Sample.objectURL (Upload Sample.video) in
  coreReachable VideoAnalysis Sample.parse Sample.stringify Sample.cast
    Sample.objectURL (upload initialMachine)
  /\ phase (ui (upload initialMachine)) = Analyzing
  /\ outstanding (upload (upload initialMachine)) = 2%nat
  /\ ~ rejectsUploadWhileAnalyzing VideoAnalysis Sample.parse Sample.stringify
         Sample.cast Sample.objectURL (upload initialMachine) Sample.video.
Proof.
  cbv zeta. split; [apply core_step; apply core_init|].
  split; [reflexivity|]. split; [reflexivity|].
  intros H. specialize (H eq_refl). vm_compute in H. discriminate.
Qed.

(* ================================================================== *)
(** ** The further properties at the sample data *)
(* ================================================================== *)

Lemma sample_header_no_comma (i : nat) :
  String.get i "data:video/mp4;base64" <> Some JS.comma.
Proof.
  do 21 (destruct i as [|i]; [vm_compute; discriminate|]). discriminate.
Qed.

Lemma sample_payload_no_comma (i : nat) : String.get i "AAAA" <> Some JS.comma.
Proof.
  do 4 (destruct i as [|i]; [vm_compute; discriminate|]). discriminate.
Qed.

Lemma fileToBase64_payload_witness :
  run (fileToBase64 Sample.world Sample.video)
  = ([EvReadFile Sample.video], inr "AAAA").
Proof.
  apply (proj2 (fileToBase64_payload Sample.world Sample.video "AAAA")).
  exists "data:video/mp4;base64", "".
  split; [reflexivity|]. split; [exact sample_header_no_comma|].
  split; [exact sample_payload_no_comma|]. split; [now left | discriminate].
Defined.

Lemma fileToBase64_rejects_witness :
  readAsDataURL Canon.unreadable Sample.video = inl (OtherValue "ProgressEvent")
  /\ run (fileToBase64 Canon.unreadable Sample.video)
     = ([EvReadFile Sample.video], inl (OtherValue "ProgressEvent")).
Proof.
  split; [reflexivity|].
  apply (proj1 (fileToBase64_rejects Canon.unreadable Sample.video)).
  reflexivity.
Defined.

Lemma sample_request_in_log :
  In (EvRequest (requestFor Sample.video "AAAA"))
    (fst (analysisRun VideoAnalysis Sample.parse Sample.stringify Sample.world
            Sample.video)).
Proof. simpl. right. right. left. reflexivity. Qed.

Lemma analysis_request_needs_key_and_payload_witness :
  In (EvRequest (requestFor Sample.video "AAAA"))
    (fst (analysisRun VideoAnalysis Sample.parse Sample.stringify Sample.world
            Sample.video))
  /\ optTruthy (API_KEY Sample.world) = true.
Proof.
  split; [exact sample_request_in_log|].
  exact (proj1 (proj2 (analysis_request_needs_key_and_payload VideoAnalysis
                         Sample.parse Sample.stringify Sample.world
                         Sample.video) _ sample_request_in_log)).
Defined.

Lemma analysis_throws_iff_witness :
  snd (analysisRun VideoAnalysis Sample.parse Sample.stringify
         Sample.rateLimited Sample.video)
  = inl (ErrorObj "rate limited").
Proof.
  apply (proj2 (analysis_throws_iff VideoAnalysis Sample.parse Sample.stringify
                  Sample.rateLimited Sample.video (ErrorObj "rate limited"))).
  right; right. split; [reflexivity|]. exists "AAAA". split; reflexivity.
Defined.

Lemma upload_failure_state_witness :
  validVideo Sample.video = true
  /\ snd (analysisRun VideoAnalysis Sample.parse Sample.stringify
            Sample.rateLimited Sample.video) = inl (ErrorObj "rate limited")
  /\ videoFile
       (ui (fst (handleFileUpload VideoAnalysis Sample.parse Sample.stringify
                   Sample.cast Sample.objectURL Sample.rateLimited Sample.video
                   initialMachine)))
     = Some Sample.video.
Proof.
  split; [reflexivity|]. split; [reflexivity|].
  apply (upload_failure_state VideoAnalysis Sample.parse Sample.stringify
           Sample.cast Sample.objectURL Sample.rateLimited Sample.video
           initialMachine (ErrorObj "rate limited") eq_refl eq_refl).
Defined.

Lemma upload_success_state_witness :
  validVideo Sample.video = true
  /\ snd (analysisRun VideoAnalysis Sample.parse Sample.stringify Sample.world
            Sample.video) = inr (Sample.stringify Sample.analysis 2)
  /\ jsonOutput
       (ui (fst (handleFileUpload VideoAnalysis Sample.parse Sample.stringify
                   Sample.cast Sample.objectURL Sample.world Sample.video
                   initialMachine)))
     = Sample.stringify Sample.analysis 2.
Proof.
  split; [reflexivity|]. split; [reflexivity|].
  apply (upload_success_state VideoAnalysis Sample.parse Sample.stringify
           Sample.cast Sample.objectURL Sample.world Sample.video
           initialMachine _ eq_refl eq_refl).
  apply core_init.
Defined.

Lemma upload_unreadable_file_witness :
  validVideo Sample.video = true
  /\ optTruthy (API_KEY Canon.emptyFile) = true
  /\ readAsDataURL Canon.emptyFile Sample.video
     = inr ("data:video/mp4;base64" ++ ",")
  /\ error
       (ui (fst (handleFileUpload VideoAnalysis Sample.parse Sample.stringify
                   Sample.cast Sample.objectURL Canon.emptyFile Sample.video
                   initialMachine)))
     = Some "Failed to convert file to base64.".
Proof.
  split; [reflexivity|]. split; [reflexivity|]. split; [reflexivity|].
  apply (proj2 (upload_unreadable_file VideoAnalysis Sample.parse
                  Sample.stringify Sample.cast Sample.objectURL Canon.emptyFile
                  Sample.video initialMachine eq_refl eq_refl)
           "data:video/mp4;base64" eq_refl sample_header_no_comma).
Defined.

Lemma uploading_message_while_awaiting_witness :
  validVideo Sample.video = true
  /\ progressMessage
       (ui (stateWhileAwaiting VideoAnalysis Sample.parse Sample.stringify
              Sample.cast Sample.objectURL Sample.world Sample.video
              initialMachine))
     = uploadingMessage.
Proof.
  split; [reflexivity|].
  apply (uploading_message_while_awaiting VideoAnalysis Sample.parse
           Sample.stringify Sample.cast Sample.objectURL Sample.world
           Sample.video initialMachine eq_refl sample_run_reaches_request).
Defined.

Lemma invalid_file_upload_witness :
  validVideo Canon.notVideo = false
  /\ uiStep VideoAnalysis Sample.parse Sample.stringify Sample.cast
       Sample.objectURL (DropFile [Canon.notVideo]) initialMachine
     = initialMachine.
Proof.
  split; [reflexivity|].
  apply (proj1 (proj2 (proj2
           (invalid_file_upload VideoAnalysis Sample.parse Sample.stringify
              Sample.cast Sample.objectURL Canon.notVideo initialMachine
              eq_refl)))).
Defined.

Lemma empty_answer_dead_end_witness :
  snd (analysisRun VideoAnalysis Sample.parse Sample.stringify
         Canon.emptyAnswer Sample.video) = inr ""
  /\ uiEnabled
       (fst (handleFileUpload VideoAnalysis Sample.parse Sample.stringify
               Sample.cast Sample.objectURL Canon.emptyAnswer Sample.video
               initialMachine))
       ClickNewVideo = false.
Proof.
  split; [reflexivity|].
  apply (empty_answer_dead_end VideoAnalysis Sample.parse Sample.stringify
           Sample.cast Sample.objectURL Canon.emptyAnswer Sample.video
           initialMachine eq_refl eq_refl).
  - apply core_init.
  - reflexivity.
Defined.

Lemma ui_spinner_iff_pending_witness :
  isLoading
    (ui (uiStep VideoAnalysis Sample.parse Sample.stringify Sample.cast
           Sample.objectURL (ChooseFile [Sample.video]) initialMachine)) = true
  <-> outstanding
        (uiStep VideoAnalysis Sample.parse Sample.stringify Sample.cast
           Sample.objectURL (ChooseFile [Sample.video]) initialMachine) = 1%nat.
Proof.
  exact (proj1 (ui_spinner_iff_pending VideoAnalysis Sample.parse
                  Sample.stringify Sample.cast Sample.objectURL _
                  sample_upload_reachable)).
Defined.

Lemma ui_results_alone_witness :
  resultsVisible
    (ui (readyAfter VideoAnalysis Sample.parse Sample.stringify Sample.cast
           Sample.objectURL "{dog}")) = true
  /\ errorPanelVisible
       (ui (readyAfter VideoAnalysis Sample.parse Sample.stringify Sample.cast
              Sample.objectURL "{dog}")) = false.
Proof.
  split; [reflexivity|].
  apply (ui_results_alone VideoAnalysis Sample.parse Sample.stringify
           Sample.cast Sample.objectURL _
           (readyAfter_reachable VideoAnalysis Sample.parse Sample.stringify
              Sample.cast Sample.objectURL "{dog}")).
  reflexivity.
Defined.

Lemma ui_reset_restores_initial_witness :
  uiEnabled
    (readyAfter VideoAnalysis Sample.parse Sample.stringify Sample.cast
       Sample.objectURL "{dog}") ClickNewVideo = true
  /\ uiStep VideoAnalysis Sample.parse Sample.stringify Sample.cast
       Sample.objectURL ClickNewVideo
       (readyAfter VideoAnalysis Sample.parse Sample.stringify Sample.cast
          Sample.objectURL "{dog}")
     = initialMachine.
Proof.
  split; [reflexivity|].
  apply (ui_reset_restores_initial VideoAnalysis Sample.parse Sample.stringify
           Sample.cast Sample.objectURL _ ClickNewVideo
           (readyAfter_reachable VideoAnalysis Sample.parse Sample.stringify
              Sample.cast Sample.objectURL "{dog}")
           (or_intror eq_refl) eq_refl).
Defined.

Lemma card_click_on_page_witness :
  uiEnabled
    (readyAfter VideoAnalysis Sample.parse Sample.stringify Sample.cast
       Sample.objectURL "{dog}") (ClickCard 1) = true
  /\ activeTab
       (ui (uiStep VideoAnalysis Sample.parse Sample.stringify Sample.cast
              Sample.objectURL (ClickCard 1)
              (readyAfter VideoAnalysis Sample.parse Sample.stringify
                 Sample.cast Sample.objectURL "{dog}")))
     = TabPrompts.
Proof.
  split; [reflexivity|].
  rewrite (card_click_on_page VideoAnalysis Sample.parse Sample.stringify
             Sample.cast Sample.objectURL
             (readyAfter VideoAnalysis Sample.parse Sample.stringify
                Sample.cast Sample.objectURL "{dog}")
             1 (shotPromptOf Sample.sceneB)) by reflexivity.
  reflexivity.
Defined.

Lemma selected_cards_share_id_witness :
  uiEnabled
    (readyAfter VideoAnalysis Sample.parse Sample.stringify Sample.cast
       Sample.objectURL "{dog}") (ClickCard 1) = true
  /\ isSelected
       (ui (uiStep VideoAnalysis Sample.parse Sample.stringify Sample.cast
              Sample.objectURL (ClickCard 1)
              (readyAfter VideoAnalysis Sample.parse Sample.stringify
                 Sample.cast Sample.objectURL "{dog}")))
       (shotPromptOf Sample.sceneA)
     = true.
Proof.
  split; [reflexivity|].
  assert (E : uiEnabled
                (readyAfter VideoAnalysis Sample.parse Sample.stringify
                   Sample.cast Sample.objectURL "{dog}") (ClickCard 1) = true)
    by reflexivity.
  assert (N : nth_error
                (shotPrompts
                   (ui (readyAfter VideoAnalysis Sample.parse Sample.stringify
                          Sample.cast Sample.objectURL "{dog}"))) 1
              = Some (shotPromptOf Sample.sceneB)) by reflexivity.
  rewrite (proj2 (proj2
             (selected_cards_share_id VideoAnalysis Sample.parse
                Sample.stringify Sample.cast Sample.objectURL _ 1
                (shotPromptOf Sample.sceneB)
                (readyAfter_reachable VideoAnalysis Sample.parse
                   Sample.stringify Sample.cast Sample.objectURL "{dog}")
                E N))
             (shotPromptOf Sample.sceneA) (or_introl eq_refl)).
  reflexivity.
Defined.

Lemma edit_switches_tab_when_text_reads_witness :
  "{dog}" <> jsonOutput (ui initialMachine)
  /\ activeTab
       (ui (dispatch VideoAnalysis Sample.parse Sample.stringify Sample.cast
              Sample.objectURL (EditJson "{dog}") initialMachine))
     = TabPrompts.
Proof.
  assert (D : "{dog}" <> jsonOutput (ui initialMachine)) by discriminate.
  split; [exact D|].
  apply (proj1 (edit_switches_tab_when_text_reads VideoAnalysis Sample.parse
                  Sample.stringify Sample.cast Sample.objectURL initialMachine
                  "{dog}" D) Sample.analysis Sample.analysis
           eq_refl eq_refl eq_refl).
Defined.

Lemma canon_round_trip (v : unit) : Canon.parse (Canon.stringify v 2) = inr v.
Proof. destruct v. reflexivity. Defined.

Lemma format_json_stable_witness :
  (forall v, Canon.parse (Canon.stringify v 2) = inr v)
  /\ jsonOutput
       (ui (dispatch unit Canon.parse Canon.stringify Canon.cast
              Sample.objectURL FormatJson
              (dispatch unit Canon.parse Canon.stringify Canon.cast
                 Sample.objectURL FormatJson
                 (readyAfter unit Canon.parse Canon.stringify Canon.cast
                    Sample.objectURL "{dog}"))))
     = jsonOutput
         (ui (dispatch unit Canon.parse Canon.stringify Canon.cast
                Sample.objectURL FormatJson
                (readyAfter unit Canon.parse Canon.stringify Canon.cast
                   Sample.objectURL "{dog}"))).
Proof.
  split; [exact canon_round_trip|].
  apply (proj1 (proj2 (format_json_stable unit Canon.parse Canon.stringify
                         Canon.cast Sample.objectURL) canon_round_trip)).
Defined.

Lemma download_name_and_content_witness :
  handleDownloadJson
    (setJsonOutput "{}" (setVideoFile (Some Canon.notVideo) initialState))
  = Some ("notes_analysis.json", "{}")
  /\ "notes_analysis.json" <> "analysis.json".
Proof.
  assert (H : handleDownloadJson
                (setJsonOutput "{}"
                   (setVideoFile (Some Canon.notVideo) initialState))
              = Some ("notes_analysis.json", "{}")) by reflexivity.
  split; [exact H|].
  exact (proj1 (proj2 (proj2 (download_name_and_content _) _ _ H))).
Defined.

Lemma locate_span_in_one_line_witness :
  locate Sample.twoLines 1 = Some (4, 19) /\ 13 <= 19 - 4.
Proof.
  assert (H : locate Sample.twoLines 1 = Some (4, 19)) by reflexivity.
  split; [exact H|].
  exact (proj1 (proj2 (proj2 (proj2
           (locate_span_in_one_line Sample.twoLines 1 4 19 H))))).
Defined.

Lemma formatTime_tells_whole_second_witness :
  (0 <= 5999 # 10)%Q /\ (5999 # 10 < inject_Z (2 ^ 53))%Q
  /\ (0 <= 599 # 1)%Q /\ (599 # 1 < inject_Z (2 ^ 53))%Q
  /\ formatTime (5999 # 10) = formatTime (599 # 1).
Proof.
  assert (Ha : (0 <= 5999 # 10)%Q) by (unfold Qle; simpl; lia).
  assert (Hb : (0 <= 599 # 1)%Q) by (unfold Qle; simpl; lia).
  assert (Ba : (5999 # 10 < inject_Z (2 ^ 53))%Q) by reflexivity.
  assert (Bb : (599 # 1 < inject_Z (2 ^ 53))%Q) by reflexivity.
  split; [exact Ha|]. split; [exact Ba|]. split; [exact Hb|]. split; [exact Bb|].
  apply (proj2 (formatTime_tells_whole_second (5999 # 10) (599 # 1)
                  Ha Ba Hb Bb)).
  reflexivity.
Defined.

Lemma prompt_mentions_every_field_witness :
  In "ball" (objects Sample.sceneA)
  /\ includes (promptText Sample.sceneA) "ball".
Proof.
  assert (H : In "ball" (objects Sample.sceneA)) by (simpl; auto).
  split; [exact H|].
  exact (proj1 (proj2 (prompt_mentions_every_field Sample.sceneA)) "ball" H).
Defined.

Lemma upload_shows_one_card_per_scene_witness :
  snd (analysisRun unit Canon.parse Canon.stringify Sample.world Sample.video)
  = inr "{dog}"
  /\ List.length
       (shotPrompts
          (ui (fst (handleFileUpload unit Canon.parse Canon.stringify
                      Canon.cast Sample.objectURL Sample.world Sample.video
                      initialMachine))))
     = 2%nat.
Proof.
  split; [reflexivity|].
  apply (upload_shows_one_card_per_scene unit Canon.parse Canon.stringify
           Canon.cast Sample.objectURL Sample.world Sample.video
           initialMachine "{dog}" tt Sample.analysis
           eq_refl eq_refl eq_refl eq_refl eq_refl).
Defined.
